(** * simple-capture: option tables and their translation to ffmpeg arguments

    A shallow embedding of [simple_capture/source/global_options.py] and
    [simple_capture/source/output_streams.py].

    - Python values are an inductive type; [None] is a constructor of it.
    - A Python [dict] is an association list in insertion order, with the
      dictionary operations the source uses written out ([in], subscript,
      item assignment, [del]).
    - [GlobalOptions] never mutates anything after construction, so its
      renderer is a pure loop with an explicit accumulator, wrapped in the
      [functools.cached_property] protocol.
    - [OutputStream] builds a fresh dictionary and deletes entries from it in
      place, so dictionaries live in a store addressed by locations and the
      methods run in a small state-and-exception monad that also carries the
      records written through [logging]. *)

From stdpp Require Import gmap strings list pretty.

Local Open Scope string_scope.
Local Open Scope list_scope.

(** ** Python values *)

(** The values a configuration can supply.  [str()] of a float is the
    interpreter's shortest round-trip decimal; the float type and its
    [str()] are left abstract. *)
Inductive PyVal {PyFloat : Type} : Type :=
  | PNone
  | PBool (b : bool)
  | PInt (z : Z)
  | PFloat (f : PyFloat)
  | PStr (s : string).
Arguments PyVal : clear implicits.

(** The exceptions that can surface from the modelled code. *)
Inductive PyExc : Type :=
  | TypeError
  | KeyError (key : string)
  | OtherError (name : string).

(** [val is None] *)
Definition is_None {F} (v : PyVal F) : bool :=
  match v with PNone => true | _ => false end.

(** [isinstance(val, bool)] *)
Definition isinstance_bool {F} (v : PyVal F) : bool :=
  match v with PBool _ => true | _ => false end.

(** ** Dictionaries

    Insertion-ordered, at most one entry per key. *)
Definition Dict (V : Type) : Type := list (string * V).

Module dict.
Section ops.
Context {V : Type}.

(** [d.get(k)], and [d[k]] where [None] stands for [KeyError]. *)
Fixpoint get (k : string) (d : Dict V) : option V :=
  match d with
  | [] => None
  | (k', v) :: d' => if String.eqb k k' then Some v else get k d'
  end.

(** [k in d] *)
Definition mem (k : string) (d : Dict V) : bool :=
  match get k d with Some _ => true | None => false end.

(** [d[k] = v]: an existing key keeps its position, a new key goes last. *)
Fixpoint set (k : string) (v : V) (d : Dict V) : Dict V :=
  match d with
  | [] => [(k, v)]
  | (k', v') :: d' =>
      if String.eqb k k' then (k, v) :: d' else (k', v') :: set k v d'
  end.

(** The entries left once key [k] is gone. *)
Fixpoint remove (k : string) (d : Dict V) : Dict V :=
  match d with
  | [] => []
  | (k', v') :: d' =>
      if String.eqb k k' then d' else (k', v') :: remove k d'
  end.

(** [del d[k]]: [None] stands for [KeyError]. *)
Definition del (k : string) (d : Dict V) : option (Dict V) :=
  if mem k d then Some (remove k d) else None.

(** A dictionary display [{k1: v1, ...}] or a comprehension: the items
    are assigned one after the other into an empty dictionary. *)
Definition of_items (items : list (string * V)) : Dict V :=
  fold_left (fun d kv => set kv.1 kv.2 d) items [].

(** [d.keys()] *)
Definition keys (d : Dict V) : list string := d.*1.

(** The representation invariant: no key occurs twice. *)
Definition wf (d : Dict V) : Prop := NoDup (keys d).
End ops.
End dict.

(** ** Keyword-argument binding

    A signature lists the parameter names with their defaults ([None] for a
    parameter without default).  A call with keyword arguments raises [TypeError] on
    a keyword that is no parameter and on a parameter left without value. *)
Definition Signature (F : Type) : Type := list (string * option (PyVal F)).

Section binding.
Context {F : Type}.

Definition unexpected_keywords (sig : Signature F) (kwargs : Dict (PyVal F))
    : list string :=
  List.filter (fun k => negb (dict.mem k sig)) (dict.keys kwargs).

Fixpoint bind_parameters (sig : Signature F) (kwargs : Dict (PyVal F))
    : PyExc + Dict (PyVal F) :=
  match sig with
  | [] => inr []
  | (p, dflt) :: sig' =>
      match (match dict.get p kwargs with Some v => Some v | None => dflt end) with
      | None => inl TypeError
      | Some v =>
          match bind_parameters sig' kwargs with
          | inl e => inl e
          | inr bound => inr ((p, v) :: bound)
          end
      end
  end.

Definition bind_kwargs (sig : Signature F) (kwargs : Dict (PyVal F))
    : PyExc + Dict (PyVal F) :=
  match unexpected_keywords sig kwargs with
  | [] => bind_parameters sig kwargs
  | _ :: _ => inl TypeError
  end.

(** The value a bound parameter has inside the function body. *)
Definition param (bound : Dict (PyVal F)) (p : string) : PyVal F :=
  match dict.get p bound with Some v => v | None => PNone end.
End binding.

(** ** [global_options.py] *)

(** The types a configuration schema names. *)
Inductive PyType : Type := Tint | Tbool | Tstr | Tfloat.

Definition global_options_parameters : Dict PyType :=
  dict.of_items
    [("filter_thread_count", Tint); ("display_stats", Tbool); ("send_progress", Tbool);
     ("show_timestamps", Tbool); ("show_qp_histogram", Tbool); ("show_benchmark", Tbool);
     ("show_benchmark_verbose", Tbool); ("exit_time_limit", Tint); ("dump_input_stderr", Tbool);
     ("dump_payload_stderr", Tbool); ("filter_complex_thread", Tint); ("dump_sdp_file", Tstr);
     ("abort_on_flags", Tstr); ("exit_on_error", Tbool); ("overwrite_output", Tbool);
     ("sudo", Tbool)].

Module GlobalOptions.
Section GlobalOptions.
Context {F : Type}.
(** [str()] on a float. *)
Variable float_str : F -> string.

(** [str(val)] *)
Definition str (v : PyVal F) : string :=
  match v with
  | PNone => "None"
  | PBool true => "True"
  | PBool false => "False"
  | PInt z => pretty z
  | PFloat f => float_str f
  | PStr s => s
  end.

(** An instance: its attributes, and the slot [cached_property] fills. *)
Record t : Type := Build {
  _options : Dict (PyVal F);
  _doubly_named_flags : Dict string;
  ffmpeg_arguments_cache : option (list string)
}.

(** The parameters of [__init__] after [self], with their defaults. *)
Definition signature : Signature F :=
  [("filter_thread_count", Some PNone); ("show_stats", Some (PBool true));
   ("send_progress", Some (PBool false)); ("show_timestamps", Some (PBool false));
   ("show_qp_histogram", Some (PBool false)); ("show_benchmark", Some (PBool false));
   ("show_benchmark_verbose", Some (PBool false)); ("exit_time_limit", Some PNone);
   ("dump_input_stderr", Some (PBool false)); ("dump_payload_stderr", Some (PBool false));
   ("filter_complex_thread_count", Some PNone); ("dump_sdp_file", Some PNone);
   ("abort_on_flags", Some PNone); ("exit_on_error", Some (PBool false));
   ("overwrite_output", Some (PBool false)); ("sudo", Some (PBool false))].

Definition __init__
    (filter_thread_count show_stats send_progress show_timestamps
     show_qp_histogram show_benchmark show_benchmark_verbose exit_time_limit
     dump_input_stderr dump_payload_stderr filter_complex_thread_count
     dump_sdp_file abort_on_flags exit_on_error overwrite_output sudo : PyVal F) : t :=
  {| _options := dict.of_items
       [("filter_threads", filter_thread_count); ("stats", show_stats);
        ("progress", send_progress); ("debug_ts", show_timestamps);
        ("qphist", show_qp_histogram); ("benchmark", show_benchmark);
        ("benchmark_all", show_benchmark_verbose); ("timelimit", exit_time_limit);
        ("dump", dump_input_stderr); ("hex", dump_payload_stderr);
        ("filter_complex_threads", filter_complex_thread_count);
        ("sdp_file", dump_sdp_file); ("abort_on", abort_on_flags);
        ("xerror", exit_on_error); ("y", overwrite_output)];
     _doubly_named_flags := dict.of_items [("stats", "nostats"); ("y", "n")];
     ffmpeg_arguments_cache := None |}.

(** The call of the class with keyword arguments [kwargs]. *)
Definition new (kwargs : Dict (PyVal F)) : PyExc + t :=
  match bind_kwargs signature kwargs with
  | inl e => inl e
  | inr a =>
      inr (__init__
             (param a "filter_thread_count") (param a "show_stats")
             (param a "send_progress") (param a "show_timestamps")
             (param a "show_qp_histogram") (param a "show_benchmark")
             (param a "show_benchmark_verbose") (param a "exit_time_limit")
             (param a "dump_input_stderr") (param a "dump_payload_stderr")
             (param a "filter_complex_thread_count") (param a "dump_sdp_file")
             (param a "abort_on_flags") (param a "exit_on_error")
             (param a "overwrite_output") (param a "sudo"))
  end.

(** One turn of the loop of [ffmpeg_arguments]: what the body appends to
    the list for the item [(arg, val)]. *)
Definition loop_body (doubly : Dict string) (ffmpeg_arguments : list string)
    (item : string * PyVal F) : list string :=
  let '(arg, val) := item in
  if is_None val then ffmpeg_arguments
  else if isinstance_bool val then
    match val with
    | PBool true => ffmpeg_arguments ++ ["-" +:+ arg]
    | _ =>
        match dict.get arg doubly with
        | Some negative => ffmpeg_arguments ++ ["-" +:+ negative]
        | None => ffmpeg_arguments
        end
    end
  else (ffmpeg_arguments ++ ["-" +:+ arg]) ++ [str val].

(** The body of the property [ffmpeg_arguments]. *)
Definition compute_ffmpeg_arguments (self : t) : list string :=
  fold_left (loop_body (_doubly_named_flags self)) (_options self) [].

(** Reading [self.ffmpeg_arguments] under [functools.cached_property]:
    the first read runs the body and stores the list in the instance,
    later reads return the stored list. *)
Definition ffmpeg_arguments (self : t) : list string * t :=
  match ffmpeg_arguments_cache self with
  | Some cached => (cached, self)
  | None =>
      let r := compute_ffmpeg_arguments self in
      (r, {| _options := _options self;
             _doubly_named_flags := _doubly_named_flags self;
             ffmpeg_arguments_cache := Some r |})
  end.
End GlobalOptions.
End GlobalOptions.

(** ** [generate_global_options] *)

Section global_factory.
Context {F : Type}.
Variable float_str : F -> string.

(** [ffmpeg.global_args] of the ffmpeg-python library, applied to a stream
    and the unpacked argument list; the library is not part of this program. *)
Context {Stream Node : Type}.
Variable ffmpeg_global_args : Stream -> list string -> PyExc + Node.

(** [name] is deleted on entry. *)
Definition generate_global_options (name : string) (stream : Stream)
    (kwargs : Dict (PyVal F)) : PyExc + Node :=
  match GlobalOptions.new kwargs with
  | inl e => inl e
  | inr self =>
      ffmpeg_global_args stream (GlobalOptions.ffmpeg_arguments float_str self).1
  end.
End global_factory.

(** ** The store, the log and the monad of the mutating code *)

(** Dictionaries are objects: a location names one, and two names for the
    same location see each other's updates. *)
Definition loc : Type := nat.

Inductive LogLevel : Type := DEBUG | INFO | WARNING | ERROR.

(** The two records the modelled code writes, by what they report. *)
Inductive LogMessage {F : Type} : Type :=
  | Discarding (to_remove : list string)
  | UnableToFind (name : string) (kwargs : Dict (PyVal F)).
Arguments LogMessage : clear implicits.

Record World {F : Type} : Type := mkWorld {
  dicts : list (Dict (PyVal F));
  log : list (LogLevel * LogMessage F)
}.
Arguments World : clear implicits.
Arguments mkWorld {F} _ _.

Definition M (F A : Type) : Type := World F -> (PyExc + A) * World F.

Section monad.
Context {F : Type}.

Definition ret {A} (a : A) : M F A := fun w => (inr a, w).

Definition bind {A B} (m : M F A) (k : A -> M F B) : M F B :=
  fun w =>
    match m w with
    | (inl e, w') => (inl e, w')
    | (inr a, w') => k a w'
    end.

Definition raise {A} (e : PyExc) : M F A := fun w => (inl e, w).

Definition lift {A} (r : PyExc + A) : M F A := fun w => (r, w).

(** A new dictionary object. *)
Definition alloc (d : Dict (PyVal F)) : M F loc :=
  fun w => (inr (length (dicts w)), mkWorld (dicts w ++ [d]) (log w)).

(** The current contents of a dictionary object. *)
Definition read (l : loc) : M F (Dict (PyVal F)) :=
  fun w =>
    match dicts w !! l with
    | Some d => (inr d, w)
    | None => (inl (OtherError "dangling reference"), w)
    end.

Definition write (l : loc) (d : Dict (PyVal F)) : M F unit :=
  fun w => (inr tt, mkWorld (<[l := d]> (dicts w)) (log w)).

(** [del d[k]] on the object at [l]. *)
Definition del_item (l : loc) (k : string) : M F unit :=
  bind (read l) (fun d =>
    match dict.del k d with
    | Some d' => write l d'
    | None => raise (KeyError k)
    end).

Definition logging (lvl : LogLevel) (msg : LogMessage F) : M F unit :=
  fun w => (inr tt, mkWorld (dicts w) (log w ++ [(lvl, msg)])).

(** [for x in xs: body] *)
Fixpoint for_each {A} (xs : list A) (body : A -> M F unit) : M F unit :=
  match xs with
  | [] => ret tt
  | x :: xs' => bind (body x) (fun _ => for_each xs' body)
  end.
End monad.

Declare Scope py_scope.
Delimit Scope py_scope with py.
Notation "x <- m ;; k" := (bind m (fun x => k))
  (at level 100, m at next level, right associativity) : py_scope.
Notation "m ;;; k" := (bind m (fun _ => k))
  (at level 100, right associativity) : py_scope.

(** ** [output_streams.py] *)

Definition output_stream_parameters : Dict PyType :=
  dict.of_items
    [("filename", Tstr); ("fmt", Tstr); ("video_codec", Tstr); ("audio_codec", Tstr);
     ("file_size", Tint); ("duration", Tstr); ("end_position", Tstr); ("seek_position", Tstr);
     ("timestamp", Tstr); ("target", Tstr); ("preset", Tstr); ("framerate", Tfloat);
     ("video_size", Tstr); ("aspect_ratio", Tstr); ("pixel_format", Tstr); ("sample_rate", Tint);
     ("channels", Tint); ("sample_format", Tstr); ("fourcc", Tstr); ("minimum_rate", Tstr);
     ("maximum_rate", Tstr); ("buffer_size", Tstr)].

Module OutputStream.
Section OutputStream.
Context {F : Type}.
Local Open Scope py_scope.

(** An instance: [_options] names a dictionary object, the exclusion
    groups are the tuples appended so far, and the last field is the slot
    [cached_property] fills with the dictionary it returned. *)
Record t : Type := Build {
  _options : loc;
  _mutually_exclusive : list (list string);
  ffmpeg_arguments_cache : option loc
}.

(** The parameters of [__init__] after [self]; [filename] has no default. *)
Definition signature : Signature F :=
  [("filename", None); ("fmt", Some PNone); ("video_codec", Some PNone);
   ("audio_codec", Some PNone); ("file_size", Some PNone); ("duration", Some PNone);
   ("end_position", Some PNone); ("seek_position", Some PNone); ("timestamp", Some PNone);
   ("target", Some PNone); ("preset", Some PNone); ("framerate", Some PNone);
   ("video_size", Some PNone); ("aspect_ratio", Some PNone); ("pixel_format", Some PNone);
   ("sample_rate", Some PNone); ("channels", Some PNone); ("sample_format", Some PNone);
   ("fourcc", Some PNone); ("minimum_rate", Some PNone); ("maximum_rate", Some PNone);
   ("buffer_size", Some PNone)].

Definition _define_mutually_exclusive (self : t) (args : list string) : t :=
  if (length args <=? 1)%nat then self
  else {| _options := _options self;
          _mutually_exclusive := _mutually_exclusive self ++ [args];
          ffmpeg_arguments_cache := ffmpeg_arguments_cache self |}.

Definition __init__
    (filename fmt video_codec audio_codec file_size duration end_position
     seek_position timestamp target preset framerate video_size aspect_ratio
     pixel_format sample_rate channels sample_format fourcc minimum_rate
     maximum_rate buffer_size : PyVal F) : M F t :=
  options <- alloc (dict.of_items
       [("filename", filename); ("format", fmt); ("fs", file_size);
        ("vcodec", video_codec); ("acodec", audio_codec); ("t", duration);
        ("to", end_position); ("ss", seek_position); ("timestamp", timestamp);
        ("target", target); ("pre", preset); ("framerate", framerate);
        ("s", video_size); ("aspect", aspect_ratio); ("pix_fmt", pixel_format);
        ("ar", sample_rate); ("ac", channels); ("sample_fmt", sample_format);
        ("atag", fourcc); ("minrate", minimum_rate); ("maxrate", maximum_rate);
        ("bufsize", buffer_size)]) ;;
  ret (_define_mutually_exclusive
         {| _options := options; _mutually_exclusive := [];
            ffmpeg_arguments_cache := None |}
         ["t"; "to"]).

(** The call of the class with keyword arguments [kwargs]. *)
Definition new (kwargs : Dict (PyVal F)) : M F t :=
  a <- lift (bind_kwargs signature kwargs) ;;
  __init__
    (param a "filename") (param a "fmt") (param a "video_codec")
    (param a "audio_codec") (param a "file_size") (param a "duration")
    (param a "end_position") (param a "seek_position") (param a "timestamp")
    (param a "target") (param a "preset") (param a "framerate")
    (param a "video_size") (param a "aspect_ratio") (param a "pixel_format")
    (param a "sample_rate") (param a "channels") (param a "sample_format")
    (param a "fourcc") (param a "minimum_rate") (param a "maximum_rate")
    (param a "buffer_size").

(** The property [filename]: the subscript raises [KeyError] on a table
    without the key. *)
Definition filename (self : t) : M F (PyVal F) :=
  options <- read (_options self) ;;
  match dict.get "filename" options with
  | Some value => ret value
  | None => raise (KeyError "filename")
  end.

(** The body of the outer loop of [_process_mutually_exclusive], for one
    group. *)
Definition process_group (filtered_options : loc)
    (mutually_exclusive : list string) : M F unit :=
  d <- read filtered_options ;;
  let found := List.filter (fun arg => dict.mem arg d) mutually_exclusive in
  if (length found <=? 1)%nat then ret tt
  else
    let to_remove := tail found in
    logging INFO (Discarding to_remove) ;;;
    for_each to_remove (fun arg => del_item filtered_options arg).

Definition _process_mutually_exclusive (self : t) (filtered_options : loc)
    : M F unit :=
  for_each (_mutually_exclusive self) (process_group filtered_options).

(** The dictionary comprehension of [ffmpeg_arguments]. *)
Definition filter_options (options : Dict (PyVal F)) : Dict (PyVal F) :=
  dict.of_items (List.filter (fun item => negb (is_None item.2)) options).

(** The body of the property [ffmpeg_arguments]; it returns the dictionary
    object it built. *)
Definition compute_ffmpeg_arguments (self : t) : M F loc :=
  options <- read (_options self) ;;
  filtered_options <- alloc (filter_options options) ;;
  _process_mutually_exclusive self filtered_options ;;;
  ret filtered_options.

(** Reading [self.ffmpeg_arguments] under [functools.cached_property]. *)
Definition ffmpeg_arguments (self : t) : M F (loc * t) :=
  match ffmpeg_arguments_cache self with
  | Some cached => ret (cached, self)
  | None =>
      r <- compute_ffmpeg_arguments self ;;
      ret (r, {| _options := _options self;
                 _mutually_exclusive := _mutually_exclusive self;
                 ffmpeg_arguments_cache := Some r |})
  end.
End OutputStream.
End OutputStream.

(** ** [generate_output_stream] *)

Section factory.
Context {F : Type}.
Local Open Scope py_scope.

(** What [ffmpeg.output] of the ffmpeg-python library returns: a node of
    its graph.  The library is not part of this program; its function is a
    parameter, and it may raise. *)
Context {Node : Type}.
Variable ffmpeg_output : list (PyVal F) -> Dict (PyVal F) -> PyExc + Node.

(** The registry maps a stream name to a class, called with keyword
    arguments to make an instance. *)
Local Abbreviation Registry :=
  (gmap string (Dict (PyVal F) -> M F OutputStream.t)).

(** The result is [None] for Python's [None]. *)
Definition generate_output_stream (registry : Registry) (name : string)
    (args : list (PyVal F)) (kwargs : Dict (PyVal F)) : M F (option Node) :=
  match registry !! name with
  | None =>
      logging ERROR (UnableToFind name kwargs) ;;;
      ret None
  | Some stream =>
      self <- stream kwargs ;;
      r <- OutputStream.ffmpeg_arguments self ;;
      keywords <- read r.1 ;;
      node <- lift (ffmpeg_output args keywords) ;;
      ret (Some node)
  end.
End factory.

(** ** [utils.py] *)

Module utils.



(** [register(registry_enabled_object, name)(callable_object)], on the
    registry the object retrieves: the result and the registry afterwards. *)
Definition register {C : Type} (registry : gmap string C) (name : string)
    (callable_object : C) : C * gmap string C :=
  (callable_object, <[name := callable_object]> registry).

End utils.

(** ** Vocabulary of the properties *)

(** The dictionary [d] without the keys in [ks]; the other entries keep
    their order and values. *)
Definition discard {V : Type} (ks : list string) (d : Dict V) : Dict V :=
  List.filter (fun item => negb (bool_decide (item.1 ∈ ks))) d.

(** Two worlds hold the same dictionary objects, with the same contents
    except perhaps at location [l]. *)
Definition same_except {F : Type} (l : loc) (w w' : World F) : Prop :=
  length (dicts w') = length (dicts w) /\
  forall l', l' ≠ l -> dicts w' !! l' = dicts w !! l'.

(** The tokens one option contributes: what the loop body of
    [GlobalOptions.ffmpeg_arguments] appends to an empty list for it. *)
Definition option_tokens {F : Type} (float_str : F -> string)
    (doubly : Dict string) (item : string * PyVal F) : list string :=
  GlobalOptions.loop_body float_str doubly [] item.

(** The outcome of a constructor call, rendered: the exception it raised or
    the argument list of the instance it made. *)
Definition rendered {F : Type} (float_str : F -> string)
    (r : PyExc + GlobalOptions.t) : PyExc + list string :=
  match r with
  | inl e => inl e
  | inr self => inr (GlobalOptions.ffmpeg_arguments float_str self).1
  end.

(** Closed examples give a float by the text [str()] returns for it. *)
Definition FloatText : Type := string.
Definition float_text (f : FloatText) : string := f.

(** The members of a group that a dictionary holds, in priority order. *)
Definition present {V : Type} (group : list string) (d : Dict V) : list string :=
  List.filter (fun arg => dict.mem arg d) group.

(** What resolving one group makes of a dictionary: with at most one member
    present the dictionary itself, otherwise the dictionary without the
    present members that follow the first. *)
Definition resolve_group {V : Type} (group : list string) (d : Dict V) : Dict V :=
  if (length (present group d) <=? 1)%nat then d
  else discard (tail (present group d)) d.

(** The record resolving one group writes to the log, if any. *)
Definition resolve_log {F : Type} (group : list string) (d : Dict (PyVal F))
    : list (LogLevel * LogMessage F) :=
  if (length (present group d) <=? 1)%nat then []
  else [(INFO, Discarding (tail (present group d)))].

(** The contract of the resolver for one group [group] and the dictionary
    [m] stored at [l] in the world [w]:
    - with zero or one member present, the call returns and nothing changes;
    - with more than one present, the call returns, only the dictionary at
      [l] changes, and it becomes [m] without the present members other
      than the first present one [first]: these are gone, [first] has the
      value it had, and so has every key that is no such member. *)
Definition exclusion_contract {F : Type} (group : list string) (l : loc)
    (m : Dict (PyVal F)) (w : World F) : Prop :=
  ((length (present group m) <= 1)%nat ->
     OutputStream.process_group l group w = (inr tt, w)) /\
  (forall first rest, present group m = first :: rest -> rest ≠ [] ->
     exists w' m',
       OutputStream.process_group l group w = (inr tt, w') /\
       same_except l w w' /\
       dicts w' !! l = Some m' /\
       m' = discard (List.filter (fun k => negb (String.eqb k first)) rest) m /\
       (forall k, k ∈ rest -> k ≠ first -> dict.get k m' = None) /\
       dict.get first m' = dict.get first m /\
       (forall k, k ∉ rest -> dict.get k m' = dict.get k m)).

(** An [OutputStream] whose [cached_property] slot holds the object [r]. *)
Definition with_cache (self : OutputStream.t) (r : loc) : OutputStream.t :=
  {| OutputStream._options := OutputStream._options self;
     OutputStream._mutually_exclusive := OutputStream._mutually_exclusive self;
     OutputStream.ffmpeg_arguments_cache := Some r |}.

(** What resolving the groups one after the other makes of a dictionary. *)
Definition resolve_groups {V : Type} (groups : list (list string)) (d : Dict V)
    : Dict V :=
  fold_left (fun d group => resolve_group group d) groups d.

(** The records resolving the groups one after the other writes. *)
Fixpoint resolve_logs {F : Type} (groups : list (list string))
    (d : Dict (PyVal F)) : list (LogLevel * LogMessage F) :=
  match groups with
  | [] => []
  | group :: groups' =>
      resolve_log group d ++ resolve_logs groups' (resolve_group group d)
  end.

(** An option that contributes tokens: its value is not [None], and not
    [False] without a negative name. *)
Definition emits {F : Type} (doubly : Dict string) (item : string * PyVal F)
    : bool :=
  match item.2 with
  | PNone => false
  | PBool false => dict.mem item.1 doubly
  | _ => true
  end.



(** The renderer's rules of the specification (section 4.1), written out
    for one option: its flag name, the negative flag name it may have, and
    its value.  Nothing for [None]; the flag for [True]; the negative flag,
    if any, for [False]; the flag and the value's string form otherwise. *)
Definition flag_tokens {F : Type} (float_str : F -> string) (flag : string)
    (negative : option string) (val : PyVal F) : list string :=
  match val with
  | PNone => []
  | PBool true => ["-" +:+ flag]
  | PBool false =>
      match negative with
      | Some negative_flag => ["-" +:+ negative_flag]
      | None => []
      end
  | PInt z => ["-" +:+ flag; pretty z]
  | PFloat f => ["-" +:+ flag; float_str f]
  | PStr s => ["-" +:+ flag; s]
  end.

(** * Facts about the embedding *)

(** ** Dictionaries *)

Section dict_facts.
Context {V : Type}.
Implicit Types (d : Dict V) (k : string) (v : V).

Lemma eqb_sym_false k k' : k ≠ k' -> String.eqb k k' = false.
Proof. intros H. by apply String.eqb_neq. Qed.

Lemma dict_get_None k d : dict.get k d = None <-> k ∉ dict.keys d.
Proof.
  unfold dict.keys. induction d as [|[k' v] d IH]; simpl.
  - split; [intros _; apply not_elem_of_nil | done].
  - rewrite not_elem_of_cons. destruct (String.eqb_spec k k') as [->|Hne].
    + split; [done | intros [? _]; done].
    + rewrite IH. tauto.
Qed.

Lemma dict_mem_keys k d : dict.mem k d = true <-> k ∈ dict.keys d.
Proof.
  unfold dict.mem. destruct (dict.get k d) eqn:E.
  - split; [intros _ | done].
    destruct (decide (k ∈ dict.keys d)) as [|Hn]; [done|].
    apply dict_get_None in Hn. congruence.
  - apply dict_get_None in E. split; [done | tauto].
Qed.

Lemma dict_mem_false k d : dict.mem k d = false <-> k ∉ dict.keys d.
Proof.
  rewrite <- dict_mem_keys. destruct (dict.mem k d); split; congruence.
Qed.

Lemma dict_set_fresh k v d : k ∉ dict.keys d -> dict.set k v d = d ++ [(k, v)].
Proof.
  unfold dict.keys. induction d as [|[k' v'] d IH]; simpl; [done|].
  rewrite not_elem_of_cons. intros [Hne Hd].
  rewrite (eqb_sym_false _ _ Hne). by rewrite IH.
Qed.

Lemma dict_keys_set k v d :
  dict.keys (dict.set k v d) =
    if dict.mem k d then dict.keys d else dict.keys d ++ [k].
Proof.
  unfold dict.keys, dict.mem. induction d as [|[k' v'] d IH]; [done|].
  cbn [dict.set dict.get].
  destruct (String.eqb_spec k k') as [->|Hne]; [done|].
  rewrite !fmap_cons, IH. by destruct (dict.get k d).
Qed.

Lemma dict_get_set k k' v d :
  dict.get k' (dict.set k v d) = if String.eqb k' k then Some v else dict.get k' d.
Proof.
  induction d as [|[k0 v0] d IH]; simpl; [done|].
  destruct (String.eqb_spec k k0) as [->|Hne]; simpl.
  - by destruct (String.eqb_spec k' k0).
  - rewrite IH. destruct (String.eqb_spec k' k0) as [->|?]; [|done].
    by rewrite (eqb_sym_false _ _ (not_eq_sym Hne)).
Qed.

Lemma dict_set_wf k v d : dict.wf d -> dict.wf (dict.set k v d).
Proof.
  unfold dict.wf. intros Hd. rewrite dict_keys_set.
  destruct (dict.mem k d) eqn:E; [done|].
  apply dict_mem_false in E. apply NoDup_app. split_and!; [done| |apply NoDup_singleton].
  intros x Hx ->%list_elem_of_singleton. done.
Qed.

Lemma dict_items_fold (items : list (string * V)) d :
  NoDup (dict.keys d ++ items.*1) ->
  fold_left (fun d kv => dict.set kv.1 kv.2 d) items d = d ++ items.
Proof.
  revert d. induction items as [|[k v] items IH]; intros d Hnd; simpl.
  - by rewrite app_nil_r.
  - rewrite dict_set_fresh.
    + rewrite IH; [by rewrite <- app_assoc|].
      unfold dict.keys in *. rewrite fmap_app. simpl. by rewrite <- app_assoc.
    + apply NoDup_app in Hnd as (_ & Hdisj & _). intros Hin.
      apply (Hdisj k Hin). simpl. apply list_elem_of_here.
Qed.

(** A display or comprehension over distinct keys lists its items as
    written. *)
Lemma dict_of_items_NoDup (items : list (string * V)) :
  NoDup items.*1 -> dict.of_items items = items.
Proof. intros H. unfold dict.of_items. by rewrite dict_items_fold. Qed.

Lemma dict_of_items_wf (items : list (string * V)) : dict.wf (dict.of_items items).
Proof.
  unfold dict.of_items.
  assert (forall d, dict.wf d ->
            dict.wf (fold_left (fun d kv => dict.set kv.1 kv.2 d) items d)) as H.
  { induction items as [|[k v] items IH]; intros d Hd; simpl; [done|].
    apply IH. by apply dict_set_wf. }
  apply H. apply NoDup_nil_2.
Qed.

Lemma dict_filter_keys_elem (f : string * V -> bool) k d :
  k ∈ dict.keys (List.filter f d) -> k ∈ dict.keys d.
Proof.
  unfold dict.keys. induction d as [|[k' v'] d IH]; simpl; [done|].
  destruct (f (k', v')); simpl; rewrite ?elem_of_cons; tauto.
Qed.

Lemma dict_filter_wf (f : string * V -> bool) d :
  dict.wf d -> dict.wf (List.filter f d).
Proof.
  unfold dict.wf, dict.keys. induction d as [|[k' v'] d IH]; simpl; [done|].
  rewrite NoDup_cons. intros [Hk Hd]. destruct (f (k', v')); simpl; [|by apply IH].
  apply NoDup_cons. split; [|by apply IH].
  intros Hin. by apply dict_filter_keys_elem in Hin.
Qed.

(** Looking a key up after filtering on the keys. *)
Lemma dict_get_filter_key (p : string -> bool) k d :
  dict.get k (List.filter (fun item => p item.1) d) =
    if p k then dict.get k d else None.
Proof.
  induction d as [|[k' v'] d IH]; simpl; [by destruct (p k)|].
  destruct (p k') eqn:Ek'; simpl; rewrite IH;
    destruct (String.eqb_spec k k') as [->|Hne]; try done.
  - by rewrite Ek'.
  - by rewrite Ek'.
Qed.

(** Looking a key up after filtering on the values. *)
Lemma dict_get_filter_value (p : V -> bool) k d :
  dict.wf d ->
  dict.get k (List.filter (fun item => p item.2) d) =
    match dict.get k d with
    | Some v => if p v then Some v else None
    | None => None
    end.
Proof.
  unfold dict.wf, dict.keys. induction d as [|[k' v'] d IH]; simpl; [done|].
  rewrite NoDup_cons. intros [Hk Hd].
  destruct (String.eqb_spec k k') as [->|Hne].
  - destruct (p v') eqn:Ev; simpl; [by rewrite String.eqb_refl|].
    apply dict_get_None. intros Hin. by apply dict_filter_keys_elem in Hin.
  - destruct (p v'); simpl; [rewrite (eqb_sym_false _ _ Hne)|]; by apply IH.
Qed.

(** In a well-formed dictionary, deleting a key is filtering it out. *)
Lemma dict_remove_filter k d :
  dict.wf d ->
  dict.remove k d = List.filter (fun item => negb (String.eqb k item.1)) d.
Proof.
  unfold dict.wf, dict.keys. induction d as [|[k' v'] d IH]; simpl; [done|].
  rewrite NoDup_cons. intros [Hk Hd].
  destruct (String.eqb_spec k k') as [->|Hne]; simpl.
  - clear IH Hd. induction d as [|[k0 v0] d IH]; simpl; [done|].
    simpl in Hk. apply not_elem_of_cons in Hk as [Hne Hk].
    rewrite (eqb_sym_false _ _ Hne). simpl. f_equal. by apply IH.
  - f_equal. by apply IH.
Qed.

Lemma dict_remove_wf k d : dict.wf d -> dict.wf (dict.remove k d).
Proof. intros H. rewrite dict_remove_filter by done. by apply dict_filter_wf. Qed.

Lemma dict_mem_remove_ne k k' d :
  k ≠ k' -> dict.mem k' (dict.remove k d) = dict.mem k' d.
Proof.
  intros Hne. unfold dict.mem. induction d as [|[k0 v0] d IH]; simpl; [done|].
  destruct (String.eqb_spec k k0) as [->|Hne0]; simpl.
  - by rewrite (eqb_sym_false _ _ (not_eq_sym Hne)).
  - destruct (String.eqb_spec k' k0); [done | apply IH].
Qed.
End dict_facts.

(** ** The store *)

Section world_facts.
Context {F : Type}.
Implicit Types (w : World F) (l : loc) (d : Dict (PyVal F)).

Lemma lookup_snoc_snoc {A} (xs : list A) (a b : A) :
  (xs ++ [a; b]) !! S (length xs) = Some b.
Proof.
  rewrite lookup_app_r by lia. by replace (S (length xs) - length xs)%nat with 1%nat by lia.
Qed.

Lemma world_eta w : mkWorld (dicts w) (log w) = w.
Proof. by destruct w. Qed.

Lemma same_except_refl l w : same_except l w w.
Proof. by split. Qed.

Lemma same_except_trans l w1 w2 w3 :
  same_except l w1 w2 -> same_except l w2 w3 -> same_except l w1 w3.
Proof.
  intros [Hlen1 H1] [Hlen2 H2]. split; [congruence|].
  intros l' Hl'. rewrite H2, H1; done.
Qed.

Lemma discard_nil {V} (d : Dict V) : discard [] d = d.
Proof.
  unfold discard. induction d as [|item d IH]; [done|].
  cbn [List.filter]. rewrite bool_decide_eq_false_2 by apply not_elem_of_nil.
  cbn [negb]. by f_equal.
Qed.

Lemma discard_cons {V} k ks (d : Dict V) :
  dict.wf d -> discard ks (dict.remove k d) = discard (k :: ks) d.
Proof.
  intros Hd. rewrite dict_remove_filter by done. unfold discard. clear Hd.
  induction d as [|[k' v'] d IH]; [done|].
  cbn [List.filter fst].
  destruct (String.eqb_spec k k') as [->|Hne]; cbn [negb List.filter fst].
  - rewrite (bool_decide_eq_true_2 (k' ∈ k' :: ks)) by apply list_elem_of_here.
    cbn [negb]. apply IH.
  - destruct (decide (k' ∈ ks)) as [Hin|Hnin].
    + rewrite !bool_decide_eq_true_2; [cbn [negb]; apply IH| |done].
      by apply list_elem_of_further.
    + rewrite !bool_decide_eq_false_2; [cbn [negb]; f_equal; apply IH| |done].
      rewrite elem_of_cons. intros [?|?]; congruence.
Qed.

Lemma dict_get_discard {V} ks k (d : Dict V) :
  dict.get k (discard ks d) = if bool_decide (k ∈ ks) then None else dict.get k d.
Proof.
  unfold discard.
  pose proof (dict_get_filter_key
                (fun k0 : string => negb (bool_decide (k0 ∈ ks))) k d) as H.
  cbn beta in H. rewrite H. by destruct (bool_decide (k ∈ ks)).
Qed.

(** Deleting, one after the other, distinct keys that are all present
    succeeds and leaves the dictionary without them. *)
Lemma for_each_del_item (ks : list string) l d w :
  dicts w !! l = Some d -> dict.wf d -> NoDup ks ->
  (forall k, k ∈ ks -> dict.mem k d = true) ->
  for_each ks (del_item l) w
  = (inr tt, mkWorld (<[l := discard ks d]> (dicts w)) (log w)).
Proof.
  revert d w. induction ks as [|k ks IH]; intros d w Hl Hd Hnd Hmem; simpl.
  - rewrite discard_nil, list_insert_id by done. unfold ret. by rewrite world_eta.
  - apply NoDup_cons in Hnd as [Hk Hnd].
    unfold bind at 1, del_item, bind, read. rewrite Hl.
    unfold dict.del. rewrite (Hmem k) by apply list_elem_of_here.
    unfold write. rewrite (IH (dict.remove k d)); simpl.
    + by rewrite list_insert_insert_eq, discard_cons.
    + apply list_lookup_insert_eq. by eapply lookup_lt_Some.
    + by apply dict_remove_wf.
    + done.
    + intros k' Hk'. rewrite dict_mem_remove_ne; [|congruence].
      apply Hmem. by apply list_elem_of_further.
Qed.

(** A loop changes the world within a reflexive, transitive relation that
    each turn respects. *)
Lemma for_each_preserves {A} (R : World F -> World F -> Prop)
    (xs : list A) (body : A -> M F unit) :
  (forall w, R w w) -> (forall w1 w2 w3, R w1 w2 -> R w2 w3 -> R w1 w3) ->
  (forall x w, R w (body x w).2) ->
  forall w, R w (for_each xs body w).2.
Proof.
  intros Hrefl Htrans Hbody. induction xs as [|x xs IH]; intros w; simpl.
  - apply Hrefl.
  - unfold bind. specialize (Hbody x w). destruct (body x w) as [[e|[]] w1]; simpl in *.
    + done.
    + eapply Htrans; [done | apply IH].
Qed.

Lemma del_item_frame l k w : same_except l w (del_item l k w).2.
Proof.
  unfold del_item, bind, read. destruct (dicts w !! l) as [d|] eqn:E; simpl.
  - destruct (dict.del k d); simpl.
    + split; [apply length_insert|].
      intros l' Hl'. by apply list_lookup_insert_ne.
    + apply same_except_refl.
  - apply same_except_refl.
Qed.

Lemma logging_frame l lvl msg w : same_except l w (logging lvl msg w).2.
Proof. by split. Qed.

(** Whatever a group holds, and whether or not a deletion fails, resolving
    it touches no dictionary but the one it is given. *)
Lemma process_group_frame l g w :
  same_except l w (OutputStream.process_group l g w).2.
Proof.
  unfold OutputStream.process_group, bind, read.
  destruct (dicts w !! l) as [d|]; simpl; [|apply same_except_refl].
  destruct (_ <=? _)%nat; simpl; [apply same_except_refl|].
  eapply same_except_trans; [apply (logging_frame l INFO)|].
  apply (for_each_preserves (same_except l));
    eauto using same_except_refl, same_except_trans, del_item_frame.
Qed.

Lemma _process_mutually_exclusive_frame (self : OutputStream.t) l w :
  same_except l w (OutputStream._process_mutually_exclusive self l w).2.
Proof.
  apply (for_each_preserves (same_except l));
    eauto using same_except_refl, same_except_trans, process_group_frame.
Qed.
End world_facts.

(** ** The renderer of [GlobalOptions] *)

Section global_facts.
Context {F : Type}.
Variable float_str : F -> string.
Implicit Types (doubly : Dict string) (table : Dict (PyVal F)) (item : string * PyVal F).

(** The loop body only appends. *)
Lemma loop_body_acc doubly (acc : list string) item :
  GlobalOptions.loop_body float_str doubly acc item
  = acc ++ option_tokens float_str doubly item.
Proof.
  unfold option_tokens, GlobalOptions.loop_body. destruct item as [arg val].
  destruct val as [|[|]| | |]; simpl; rewrite ?app_nil_r; try done.
  - by destruct (dict.get arg doubly); rewrite ?app_nil_r.
  - by rewrite <- app_assoc.
  - by rewrite <- app_assoc.
  - by rewrite <- app_assoc.
Qed.

Lemma loop_acc doubly table (acc : list string) :
  fold_left (GlobalOptions.loop_body float_str doubly) table acc
  = acc ++ fold_left (GlobalOptions.loop_body float_str doubly) table [].
Proof.
  revert acc. induction table as [|item table IH]; intros acc; simpl.
  - by rewrite app_nil_r.
  - rewrite IH, (IH (GlobalOptions.loop_body _ _ [] _)), loop_body_acc.
    by rewrite <- app_assoc.
Qed.

Lemma compute_app doubly table1 table2 c c1 c2 :
  GlobalOptions.compute_ffmpeg_arguments float_str
    (GlobalOptions.Build (table1 ++ table2) doubly c)
  = GlobalOptions.compute_ffmpeg_arguments float_str
      (GlobalOptions.Build table1 doubly c1)
    ++ GlobalOptions.compute_ffmpeg_arguments float_str
         (GlobalOptions.Build table2 doubly c2).
Proof.
  unfold GlobalOptions.compute_ffmpeg_arguments. simpl.
  by rewrite fold_left_app, loop_acc.
Qed.

Lemma compute_cons doubly item table c c' :
  GlobalOptions.compute_ffmpeg_arguments float_str
    (GlobalOptions.Build (item :: table) doubly c)
  = option_tokens float_str doubly item
    ++ GlobalOptions.compute_ffmpeg_arguments float_str
         (GlobalOptions.Build table doubly c').
Proof.
  unfold GlobalOptions.compute_ffmpeg_arguments. simpl. by rewrite loop_acc.
Qed.

Lemma compute_concat doubly table c :
  GlobalOptions.compute_ffmpeg_arguments float_str
    (GlobalOptions.Build table doubly c)
  = concat (map (option_tokens float_str doubly) table).
Proof.
  induction table as [|item table IH]; [done|].
  rewrite (compute_cons _ _ _ _ c). simpl. by rewrite IH.
Qed.

(** Every parameter of the signature has a default, so binding fails on an
    unexpected keyword only. *)
Lemma bind_parameters_defaults (sig : Signature F) (kwargs : Dict (PyVal F)) :
  Forall (fun p => is_Some p.2) sig ->
  bind_parameters sig kwargs
  = inr (map (fun p => (p.1, match dict.get p.1 kwargs with
                             | Some v => v
                             | None => default PNone p.2
                             end)) sig).
Proof.
  induction 1 as [|[p dflt] sig [v Hv] _ IH]; simpl in *; [done|].
  subst dflt. rewrite IH. by destruct (dict.get p kwargs).
Qed.

(** The value a parameter is bound to: the keyword argument of its name,
    or else its default. *)
Lemma param_bound (sig : Signature F) (kwargs : Dict (PyVal F)) (p : string) :
  param (map (fun q => (q.1, match dict.get q.1 kwargs with
                             | Some v => v
                             | None => default PNone q.2
                             end)) sig) p
  = match dict.get p sig with
    | Some dflt => match dict.get p kwargs with
                   | Some v => v
                   | None => default PNone dflt
                   end
    | None => PNone
    end.
Proof.
  unfold param. induction sig as [|[q dflt] sig IH]; simpl; [done|].
  destruct (String.eqb_spec p q) as [->|Hne]; [done | apply IH].
Qed.

Lemma unexpected_keywords_set (sig : Signature F) k v1 v2 (kwargs : Dict (PyVal F)) :
  unexpected_keywords sig (dict.set k v1 kwargs)
  = unexpected_keywords sig (dict.set k v2 kwargs).
Proof. unfold unexpected_keywords. by rewrite !dict_keys_set. Qed.
End global_facts.

(** ** The renderer of [OutputStream] *)

Section output_facts.
Context {F : Type}.
Implicit Types (w : World F) (l : loc) (d m : Dict (PyVal F)) (g : list string).

Lemma filter_options_wf d : dict.wf (OutputStream.filter_options d).
Proof. apply dict_of_items_wf. Qed.

(** Over a well-formed dictionary the comprehension is a filter. *)
Lemma filter_options_filter d :
  dict.wf d ->
  OutputStream.filter_options d
  = List.filter (fun item => negb (is_None item.2)) d.
Proof.
  intros Hd. unfold OutputStream.filter_options.
  apply dict_of_items_NoDup. by apply (dict_filter_wf _ d).
Qed.

Lemma dict_get_filter_options k d :
  dict.wf d ->
  dict.get k (OutputStream.filter_options d)
  = match dict.get k d with
    | Some v => if is_None v then None else Some v
    | None => None
    end.
Proof.
  intros Hd. rewrite filter_options_filter by done.
  rewrite (dict_get_filter_value (fun v => negb (is_None v))) by done.
  destruct (dict.get k d) as [v|]; [|done]. by destruct (is_None v).
Qed.

Lemma present_elem g m k : k ∈ present g m -> k ∈ g /\ dict.mem k m = true.
Proof.
  unfold present. rewrite list_elem_of_In, filter_In, <- list_elem_of_In. tauto.
Qed.

Lemma present_NoDup g m : NoDup g -> NoDup (present g m).
Proof. rewrite !NoDup_ListNoDup. apply List.NoDup_filter. Qed.

Lemma tail_elem {A} (x : A) (xs : list A) : x ∈ tail xs -> x ∈ xs.
Proof. destruct xs; simpl; [done|]. apply list_elem_of_further. Qed.

Lemma tail_NoDup {A} (xs : list A) : NoDup xs -> NoDup (tail xs).
Proof. destruct xs; simpl; [done|]. by intros [_ ?]%NoDup_cons. Qed.

(** Resolving a group of distinct names returns, and acts on the
    dictionary as [resolve_group] says. *)
Lemma process_group_run l g m w :
  dicts w !! l = Some m -> dict.wf m -> NoDup g ->
  OutputStream.process_group l g w
  = (inr tt, mkWorld (<[l := resolve_group g m]> (dicts w))
                     (log w ++ resolve_log g m)).
Proof.
  intros Hl Hm Hg. unfold OutputStream.process_group, bind at 1, read.
  rewrite Hl. fold (present g m). unfold resolve_group, resolve_log.
  destruct (_ <=? _)%nat.
  - rewrite list_insert_id, app_nil_r by done. unfold ret. by rewrite world_eta.
  - unfold bind, logging.
    erewrite for_each_del_item; simpl; eauto.
    + by apply tail_NoDup, present_NoDup.
    + intros k Hk%tail_elem. by apply present_elem in Hk as [_ ?].
Qed.
End output_facts.

Section output_run.
Context {F : Type}.
Implicit Types (w : World F) (l : loc) (d m table : Dict (PyVal F)) (g : list string)
  (self : OutputStream.t).

(** The first read of [ffmpeg_arguments] on an instance with one group of
    distinct names: it returns a new dictionary object, holding the
    non-[None] options with the group resolved. *)
Lemma ffmpeg_arguments_first_read self w table g :
  OutputStream.ffmpeg_arguments_cache self = None ->
  OutputStream._mutually_exclusive self = [g] -> NoDup g ->
  dicts w !! OutputStream._options self = Some table ->
  OutputStream.ffmpeg_arguments self w
  = (inr (length (dicts w), with_cache self (length (dicts w))),
     mkWorld (dicts w ++ [resolve_group g (OutputStream.filter_options table)])
             (log w ++ resolve_log g (OutputStream.filter_options table))).
Proof.
  intros Hc Hgs Hg Hl.
  unfold OutputStream.ffmpeg_arguments. rewrite Hc.
  unfold OutputStream.compute_ffmpeg_arguments, bind at 1 2, read. rewrite Hl.
  unfold bind at 1, alloc. unfold bind at 1.
  unfold OutputStream._process_mutually_exclusive. rewrite Hgs. simpl for_each.
  unfold bind at 1.
  rewrite (process_group_run _ g (OutputStream.filter_options table));
    [|simpl; by rewrite list_lookup_middle|apply filter_options_wf|done].
  unfold ret. simpl. f_equal.
  - unfold with_cache. by rewrite Hgs.
  - by rewrite insert_app_r_alt, Nat.sub_diag by done.
Qed.

(** A later read returns the cached object and changes nothing. *)
Lemma ffmpeg_arguments_cached self w r :
  OutputStream.ffmpeg_arguments_cache self = Some r ->
  OutputStream.ffmpeg_arguments self w = (inr (r, self), w).
Proof. intros Hc. unfold OutputStream.ffmpeg_arguments. by rewrite Hc. Qed.
End output_run.

(** ** A freshly constructed [OutputStream] *)

Section constructed_stream.
Context {F : Type}.
Variables filename fmt video_codec audio_codec file_size duration end_position
  seek_position timestamp target preset framerate video_size aspect_ratio
  pixel_format sample_rate channels sample_format fourcc minimum_rate
  maximum_rate buffer_size : PyVal F.

Local Abbreviation construct :=
  (OutputStream.__init__ filename fmt video_codec audio_codec file_size duration
     end_position seek_position timestamp target preset framerate video_size
     aspect_ratio pixel_format sample_rate channels sample_format fourcc
     minimum_rate maximum_rate buffer_size).

(** The items of the display in [__init__], in the order written. *)
Local Abbreviation display :=
  [("filename", filename); ("format", fmt); ("fs", file_size);
   ("vcodec", video_codec); ("acodec", audio_codec); ("t", duration);
   ("to", end_position); ("ss", seek_position); ("timestamp", timestamp);
   ("target", target); ("pre", preset); ("framerate", framerate);
   ("s", video_size); ("aspect", aspect_ratio); ("pix_fmt", pixel_format);
   ("ar", sample_rate); ("ac", channels); ("sample_fmt", sample_format);
   ("atag", fourcc); ("minrate", minimum_rate); ("maxrate", maximum_rate);
   ("bufsize", buffer_size)].

Lemma display_wf : dict.wf display.
Proof. unfold dict.wf, dict.keys. compute_done. Qed.

(** Construction allocates the option table and declares the one group. *)
Lemma construct_run (w : World F) :
  construct w
  = (inr (OutputStream.Build (length (dicts w)) [["t"; "to"]] None),
     mkWorld (dicts w ++ [display]) (log w)).
Proof. reflexivity. Qed.

(** Construction followed by the first read of [ffmpeg_arguments]. *)
Lemma construct_render_run (w : World F) :
  bind construct OutputStream.ffmpeg_arguments w
  = (inr (S (length (dicts w)),
          OutputStream.Build (length (dicts w)) [["t"; "to"]]
            (Some (S (length (dicts w))))),
     mkWorld (dicts w ++ [display;
                resolve_group ["t"; "to"] (OutputStream.filter_options display)])
             (log w ++ resolve_log ["t"; "to"] (OutputStream.filter_options display))).
Proof.
  unfold bind. rewrite construct_run.
  erewrite (ffmpeg_arguments_first_read _ _ display ["t"; "to"]);
    [|done|done|compute_done|simpl; by rewrite list_lookup_middle].
  simpl. rewrite length_app, Nat.add_1_r. unfold with_cache. simpl.
  by rewrite <- app_assoc.
Qed.
End constructed_stream.

(** * The properties of the specification *)

(** C1.  An option [(arg, val)] standing anywhere in a rendered option
    table contributes, at its place between what the options before it and
    the options after it contribute, exactly: nothing when [val] is [None];
    the single token [-arg] when [val] is [True]; the single token
    [-negative] when [val] is [False] and the doubly-named flags map [arg]
    to [negative]; nothing when [val] is [False] and they hold no entry for
    [arg]; and the two tokens [-arg], [str(val)], in that order, when [val]
    is neither [None] nor a boolean. *)
Theorem per_option_tokens {F : Type} (float_str : F -> string)
    (doubly : Dict string) (before after : Dict (PyVal F))
    (arg : string) (val : PyVal F) :
  exists emitted : list string,
    GlobalOptions.compute_ffmpeg_arguments float_str
      (GlobalOptions.Build (before ++ (arg, val) :: after) doubly None)
    = GlobalOptions.compute_ffmpeg_arguments float_str
        (GlobalOptions.Build before doubly None)
      ++ emitted
      ++ GlobalOptions.compute_ffmpeg_arguments float_str
           (GlobalOptions.Build after doubly None)
    /\ (val = PNone -> emitted = [])
    /\ (val = PBool true -> emitted = ["-" +:+ arg])
    /\ (forall negative, val = PBool false ->
          dict.get arg doubly = Some negative -> emitted = ["-" +:+ negative])
    /\ (val = PBool false -> dict.get arg doubly = None -> emitted = [])
    /\ (is_None val = false -> isinstance_bool val = false ->
          emitted = ["-" +:+ arg; GlobalOptions.str float_str val]).
Proof.
  exists (option_tokens float_str doubly (arg, val)). split.
  - rewrite (compute_app _ _ _ _ _ None None). f_equal.
    apply compute_cons.
  - unfold option_tokens, GlobalOptions.loop_body.
    repeat split.
    + by intros ->.
    + by intros ->.
    + by intros negative -> ->.
    + by intros -> ->.
    + by destruct val.
Qed.

(** The five cases of C1 on the table of a [GlobalOptions] instance. *)
Lemma per_option_tokens_witness :
  GlobalOptions.compute_ffmpeg_arguments float_text
    (GlobalOptions.Build
       ([("filter_threads", PNone); ("stats", PBool false)]
        ++ ("progress", PBool true)
        :: [("debug_ts", PBool false); ("timelimit", PInt 30);
            ("sdp_file", PStr "out.sdp"); ("y", PBool true)])
       [("stats", "nostats"); ("y", "n")] None)
  = ["-nostats"] ++ ["-progress"] ++ ["-timelimit"; "30"; "-sdp_file"; "out.sdp"; "-y"].
Proof.
  destruct (per_option_tokens float_text [("stats", "nostats"); ("y", "n")]
              [("filter_threads", PNone); ("stats", PBool false)]
              [("debug_ts", PBool false); ("timelimit", PInt 30);
               ("sdp_file", PStr "out.sdp"); ("y", PBool true)]
              "progress" (PBool true))
    as (emitted & Heq & _ & Htrue & _).
  rewrite Heq, (Htrue eq_refl). reflexivity.
Defined.

(** C2, as amended.  For every mutual-exclusion group of pairwise distinct
    flag names and every option map (a dictionary [m], which holds no key
    twice, stored at [l]): with zero or one member of the group present the
    resolver leaves the map, and everything else, unchanged; with more than
    one present it deletes from the map every present member except the
    first present one in priority order, the kept member's value is
    unchanged, and no other entry or dictionary is touched. *)
Theorem exclusion_group_resolved {F : Type} (group : list string) (l : loc)
    (m : Dict (PyVal F)) (w : World F) :
  NoDup group -> dict.wf m -> dicts w !! l = Some m ->
  exclusion_contract group l m w.
Proof.
  intros Hg Hm Hl. pose proof (process_group_run l group m w Hl Hm Hg) as Hrun.
  unfold resolve_group, resolve_log in Hrun. split.
  - intros Hlen. rewrite Hrun.
    apply Nat.leb_le in Hlen. rewrite Hlen.
    by rewrite list_insert_id, app_nil_r, world_eta.
  - intros first rest Hp Hrest.
    pose proof (present_NoDup group m Hg) as Hnd. rewrite Hp in Hnd.
    apply NoDup_cons in Hnd as [Hfirst Hnd].
    assert (List.filter (fun k => negb (String.eqb k first)) rest = rest) as Hlosers.
    { clear -Hfirst. induction rest as [|k rest IH]; simpl; [done|].
      apply not_elem_of_cons in Hfirst as [Hne Hfirst].
      rewrite (eqb_sym_false _ _ (not_eq_sym Hne)). simpl. f_equal. by apply IH. }
    rewrite Hp in Hrun. simpl in Hrun.
    destruct rest as [|second rest]; [done|]. simpl in Hrun.
    eexists _, (discard (second :: rest) m). split; [exact Hrun|].
    assert (l < length (dicts w))%nat as Hlt by by eapply lookup_lt_Some.
    split_and!.
    + split; simpl; [apply length_insert|].
      intros l' Hl'. by apply list_lookup_insert_ne.
    + simpl. by apply list_lookup_insert_eq.
    + by rewrite Hlosers.
    + intros k Hk _. rewrite dict_get_discard. by rewrite bool_decide_eq_true_2.
    + rewrite dict_get_discard. by rewrite bool_decide_eq_false_2.
    + intros k Hk. rewrite dict_get_discard. by rewrite bool_decide_eq_false_2.
Qed.

(** The output-stream group [("t", "to")] on a map that holds both flags
    and a third option. *)
Lemma exclusion_group_resolved_witness :
  exclusion_contract (F := FloatText) ["t"; "to"] 0
    [("filename", PStr "out.mp4"); ("t", PStr "10"); ("to", PStr "20")]
    (mkWorld [[("filename", PStr "out.mp4"); ("t", PStr "10"); ("to", PStr "20")]] []).
Proof.
  apply exclusion_group_resolved.
  - compute_done.
  - unfold dict.wf, dict.keys. compute_done.
  - reflexivity.
Defined.

(** C2 as stated fails on a group that names a flag twice.  With the group
    [("t", "t")] and a map holding ["t"], both positions of the group are
    found present, the second is deleted, and with it the entry the group
    was to keep.  With [("t", "to", "to")] and a map holding both flags, the
    second deletion of ["to"] raises [KeyError]. *)
Lemma exclusion_group_repeated_name :
  OutputStream.process_group (F := FloatText) 0 ["t"; "t"]
    (mkWorld [[("t", PStr "10")]] [])
  = (inr tt, mkWorld [[]] [(INFO, Discarding ["t"])])
  /\ OutputStream.process_group (F := FloatText) 0 ["t"; "to"; "to"]
       (mkWorld [[("t", PStr "10"); ("to", PStr "20")]] [])
     = (inl (KeyError "to"),
        mkWorld [[("t", PStr "10")]] [(INFO, Discarding ["to"; "to"])])
  /\ ~ exclusion_contract (F := FloatText) ["t"; "t"] 0 [("t", PStr "10")]
         (mkWorld [[("t", PStr "10")]] [])
  /\ ~ exclusion_contract (F := FloatText) ["t"; "to"; "to"] 0
         [("t", PStr "10"); ("to", PStr "20")]
         (mkWorld [[("t", PStr "10"); ("to", PStr "20")]] []).
Proof.
  split_and!.
  - reflexivity.
  - reflexivity.
  - intros [_ H]. destruct (H "t" ["t"] eq_refl ltac:(done))
      as (w' & m' & Hrun & _ & Hl & _ & _ & Hkept & _).
    vm_compute in Hrun. injection Hrun as <-. simpl in Hl.
    injection Hl as <-. discriminate Hkept.
  - intros [_ H]. destruct (H "t" ["to"; "to"] eq_refl ltac:(done))
      as (w' & m' & Hrun & _).
    vm_compute in Hrun. discriminate Hrun.
Qed.

(** C3.  For an output stream constructed with both [duration] and
    [end_position] set, whatever the other options and the world, rendering
    returns an option map in which the duration's flag ["t"] carries the
    duration and the end position's flag ["to"] has no entry; every other
    flag is as in the filtered table, and the discarded flag is logged.
    With [duration = "10"], [end_position = "20"] and nothing else set, the
    option map is exactly [{"t": "10"}], whose tokens under the renderer's
    rules are ["-t"], ["10"].  (The option map is what [OutputStream]
    returns; it is handed to [ffmpeg.output] as keyword arguments.) *)
Theorem duration_excludes_end_position {F : Type} (float_str : F -> string) :
  (forall (filename fmt video_codec audio_codec file_size duration end_position
           seek_position timestamp target preset framerate video_size aspect_ratio
           pixel_format sample_rate channels sample_format fourcc minimum_rate
           maximum_rate buffer_size : PyVal F) (w : World F),
     is_None duration = false -> is_None end_position = false ->
     exists r self' w' table m,
       bind (OutputStream.__init__ filename fmt video_codec audio_codec file_size
               duration end_position seek_position timestamp target preset
               framerate video_size aspect_ratio pixel_format sample_rate channels
               sample_format fourcc minimum_rate maximum_rate buffer_size)
            OutputStream.ffmpeg_arguments w
       = (inr (r, self'), w') /\
       dicts w' !! OutputStream._options self' = Some table /\
       dicts w' !! r = Some m /\
       dict.get "t" m = Some duration /\
       dict.get "to" m = None /\
       (forall k, k ≠ "to" ->
          dict.get k m = dict.get k (OutputStream.filter_options table)) /\
       log w' = log w ++ [(INFO, Discarding ["to"])]) /\
  (forall w : World F,
     exists r self' w',
       bind (OutputStream.__init__ PNone PNone PNone PNone PNone
               (PStr "10") (PStr "20") PNone PNone PNone PNone PNone PNone PNone
               PNone PNone PNone PNone PNone PNone PNone PNone)
            OutputStream.ffmpeg_arguments w
       = (inr (r, self'), w') /\
       dicts w' !! r = Some [("t", PStr "10")] /\
       concat (map (option_tokens float_str []) [("t", PStr "10")]) = ["-t"; "10"]).
Proof.
  split.
  - intros. rewrite construct_render_run.
    set (table := [("filename", filename); _; _; _; _; _; _; _; _; _; _; _; _; _;
                   _; _; _; _; _; _; _; _]).
    assert (dict.wf table) as Hwf by apply display_wf.
    assert (dict.get "t" (OutputStream.filter_options table) = Some duration) as Ht.
    { rewrite dict_get_filter_options by done. simpl. by rewrite H. }
    assert (dict.get "to" (OutputStream.filter_options table) = Some end_position) as Hto.
    { rewrite dict_get_filter_options by done. simpl. by rewrite H0. }
    assert (present ["t"; "to"] (OutputStream.filter_options table) = ["t"; "to"]) as Hp.
    { unfold present, dict.mem. simpl. by rewrite Ht, Hto. }
    unfold resolve_group, resolve_log. rewrite Hp. simpl.
    eexists _, _, _, table, _. split; [reflexivity|]. simpl. split_and!.
    + apply (list_lookup_middle _ [_]). done.
    + apply lookup_snoc_snoc.
    + by rewrite dict_get_discard.
    + by rewrite dict_get_discard.
    + intros k Hk. rewrite dict_get_discard. rewrite bool_decide_eq_false_2; [done|].
      by intros ->%list_elem_of_singleton.
    + done.
  - intros w. rewrite construct_render_run.
    eexists _, _, _. split; [reflexivity|]. simpl. split; [|reflexivity].
    etrans; [apply lookup_snoc_snoc|]. reflexivity.
Qed.

(** C3 on a stream that also names its file. *)
Lemma duration_excludes_end_position_witness :
  exists r self' w' table m,
    bind (OutputStream.__init__ (F := FloatText) (PStr "out.mp4") PNone PNone PNone
            PNone (PStr "10") (PStr "20") PNone PNone PNone PNone PNone PNone PNone
            PNone PNone PNone PNone PNone PNone PNone PNone)
         OutputStream.ffmpeg_arguments (mkWorld [] [])
    = (inr (r, self'), w') /\
    dicts w' !! OutputStream._options self' = Some table /\
    dicts w' !! r = Some m /\
    dict.get "t" m = Some (PStr "10") /\
    dict.get "to" m = None /\
    (forall k, k ≠ "to" ->
       dict.get k m = dict.get k (OutputStream.filter_options table)) /\
    log w' = log (mkWorld (F := FloatText) [] []) ++ [(INFO, Discarding ["to"])].
Proof.
  apply (proj1 (duration_excludes_end_position float_text)); reflexivity.
Defined.

(** C4.  The schema names two keywords the constructor does not accept:
    a configuration supplying ['display_stats'] or ['filter_complex_thread']
    makes the call of [GlobalOptions] raise [TypeError].  These two are the
    only schema keys that are no parameter of [__init__], which names them
    [show_stats] and [filter_complex_thread_count]. *)
Theorem schema_keywords_rejected :
  GlobalOptions.new (F := FloatText) [("display_stats", PBool true)] = inl TypeError
  /\ GlobalOptions.new (F := FloatText) [("filter_complex_thread", PInt 2)] = inl TypeError
  /\ List.filter
       (fun k => negb (dict.mem k (GlobalOptions.signature (F := FloatText))))
       (dict.keys global_options_parameters)
     = ["display_stats"; "filter_complex_thread"].
Proof. by split_and!. Qed.

(** C5.  Reading [ffmpeg_arguments] twice gives the same result.  For every
    [GlobalOptions] the second read returns the list of the first and leaves
    the instance as the first left it.  For every [OutputStream] whose first
    read returned, the second read returns the same dictionary object and
    changes nothing, so the object holds what it held; and on every freshly
    constructed [OutputStream] the first read does return. *)
Theorem rendering_idempotent {F : Type} (float_str : F -> string) :
  (forall self : GlobalOptions.t,
     GlobalOptions.ffmpeg_arguments float_str
       (GlobalOptions.ffmpeg_arguments float_str self).2
     = ((GlobalOptions.ffmpeg_arguments float_str self).1,
        (GlobalOptions.ffmpeg_arguments float_str self).2)) /\
  (forall (self : OutputStream.t) (w : World F) r self' w',
     OutputStream.ffmpeg_arguments self w = (inr (r, self'), w') ->
     OutputStream.ffmpeg_arguments self' w' = (inr (r, self'), w')) /\
  (forall (filename fmt video_codec audio_codec file_size duration end_position
           seek_position timestamp target preset framerate video_size aspect_ratio
           pixel_format sample_rate channels sample_format fourcc minimum_rate
           maximum_rate buffer_size : PyVal F) (w : World F),
     exists r self' w',
       bind (OutputStream.__init__ filename fmt video_codec audio_codec file_size
               duration end_position seek_position timestamp target preset
               framerate video_size aspect_ratio pixel_format sample_rate channels
               sample_format fourcc minimum_rate maximum_rate buffer_size)
            OutputStream.ffmpeg_arguments w
       = (inr (r, self'), w') /\
       OutputStream.ffmpeg_arguments self' w' = (inr (r, self'), w')).
Proof.
  split_and!.
  - intros self. unfold GlobalOptions.ffmpeg_arguments.
    destruct (GlobalOptions.ffmpeg_arguments_cache self) eqn:E; simpl;
      [by rewrite E | done].
  - intros self w r self' w'. unfold OutputStream.ffmpeg_arguments at 1.
    destruct (OutputStream.ffmpeg_arguments_cache self) as [c|] eqn:Hc.
    + unfold ret. intros [= <- <- <-]. by apply ffmpeg_arguments_cached.
    + unfold bind at 1.
      destruct (OutputStream.compute_ffmpeg_arguments self w) as [[e|r0] w0];
        [done|].
      unfold ret. intros [= <- <- <-]. by apply ffmpeg_arguments_cached.
  - intros. rewrite construct_render_run. eexists _, _, _.
    split; [reflexivity|]. by apply ffmpeg_arguments_cached.
Qed.

(** C5 on a stream with both [duration] and [end_position] set: the second
    read returns the object of the first. *)
Lemma rendering_idempotent_witness :
  OutputStream.ffmpeg_arguments (F := FloatText)
    (OutputStream.Build 0 [["t"; "to"]] (Some 1))
    (mkWorld [[("filename", PStr "out.mp4"); ("t", PStr "10"); ("to", PStr "20")];
              [("filename", PStr "out.mp4"); ("t", PStr "10")]]
             [(INFO, Discarding ["to"])])
  = (inr (1, OutputStream.Build 0 [["t"; "to"]] (Some 1)),
     mkWorld [[("filename", PStr "out.mp4"); ("t", PStr "10"); ("to", PStr "20")];
              [("filename", PStr "out.mp4"); ("t", PStr "10")]]
             [(INFO, Discarding ["to"])]).
Proof.
  apply (proj1 (proj2 (rendering_idempotent float_text))
           (OutputStream.Build 0 [["t"; "to"]] None)
           (mkWorld [[("filename", PStr "out.mp4"); ("t", PStr "10");
                      ("to", PStr "20")]] [])).
  reflexivity.
Defined.

(** What the loop body appends for an option is what the rules give for
    its flag, its negative name among the doubly-named flags, and its value. *)
Lemma option_tokens_rule {F : Type} (float_str : F -> string)
    (doubly : Dict string) (arg : string) (val : PyVal F) :
  option_tokens float_str doubly (arg, val)
  = flag_tokens float_str arg (dict.get arg doubly) val.
Proof.
  unfold option_tokens, flag_tokens, GlobalOptions.loop_body.
  by destruct val as [|[|]| | |].
Qed.

(** C6.  The argument list is the concatenation, in table order, of what
    the renderer's rules give for each option: nothing is reordered and
    nothing is merged.  For a constructed [GlobalOptions] the table order is
    the order of the display in [__init__], so the list is the tokens of
    [filter_threads], then of [stats] (negative name [nostats]), then of
    [progress], [debug_ts], [qphist], [benchmark], [benchmark_all],
    [timelimit], [dump], [hex], [filter_complex_threads], [sdp_file],
    [abort_on], [xerror], and last of [y] (negative name [n]); [sudo]
    contributes nothing.  With every option [True] the list is the fifteen
    flags in that order. *)
Theorem declaration_order_preserved {F : Type} (float_str : F -> string) :
  (forall (table : Dict (PyVal F)) (doubly : Dict string) cache,
     GlobalOptions.compute_ffmpeg_arguments float_str
       (GlobalOptions.Build table doubly cache)
     = concat (map (fun item =>
                      flag_tokens float_str item.1 (dict.get item.1 doubly) item.2)
                 table)) /\
  (forall filter_thread_count show_stats send_progress show_timestamps
          show_qp_histogram show_benchmark show_benchmark_verbose exit_time_limit
          dump_input_stderr dump_payload_stderr filter_complex_thread_count
          dump_sdp_file abort_on_flags exit_on_error overwrite_output sudo : PyVal F,
     (GlobalOptions.ffmpeg_arguments float_str
        (GlobalOptions.__init__ filter_thread_count show_stats send_progress
           show_timestamps show_qp_histogram show_benchmark show_benchmark_verbose
           exit_time_limit dump_input_stderr dump_payload_stderr
           filter_complex_thread_count dump_sdp_file abort_on_flags exit_on_error
           overwrite_output sudo)).1
     = flag_tokens float_str "filter_threads" None filter_thread_count
       ++ flag_tokens float_str "stats" (Some "nostats") show_stats
       ++ flag_tokens float_str "progress" None send_progress
       ++ flag_tokens float_str "debug_ts" None show_timestamps
       ++ flag_tokens float_str "qphist" None show_qp_histogram
       ++ flag_tokens float_str "benchmark" None show_benchmark
       ++ flag_tokens float_str "benchmark_all" None show_benchmark_verbose
       ++ flag_tokens float_str "timelimit" None exit_time_limit
       ++ flag_tokens float_str "dump" None dump_input_stderr
       ++ flag_tokens float_str "hex" None dump_payload_stderr
       ++ flag_tokens float_str "filter_complex_threads" None filter_complex_thread_count
       ++ flag_tokens float_str "sdp_file" None dump_sdp_file
       ++ flag_tokens float_str "abort_on" None abort_on_flags
       ++ flag_tokens float_str "xerror" None exit_on_error
       ++ flag_tokens float_str "y" (Some "n") overwrite_output) /\
  (forall sudo : PyVal F,
     (GlobalOptions.ffmpeg_arguments float_str
        (GlobalOptions.__init__ (PBool true) (PBool true) (PBool true) (PBool true)
           (PBool true) (PBool true) (PBool true) (PBool true) (PBool true)
           (PBool true) (PBool true) (PBool true) (PBool true) (PBool true)
           (PBool true) sudo)).1
     = ["-filter_threads"; "-stats"; "-progress"; "-debug_ts"; "-qphist";
        "-benchmark"; "-benchmark_all"; "-timelimit"; "-dump"; "-hex";
        "-filter_complex_threads"; "-sdp_file"; "-abort_on"; "-xerror"; "-y"]).
Proof.
  assert (forall (table : Dict (PyVal F)) (doubly : Dict string) cache,
            GlobalOptions.compute_ffmpeg_arguments float_str
              (GlobalOptions.Build table doubly cache)
            = concat (map (fun item =>
                             flag_tokens float_str item.1 (dict.get item.1 doubly)
                               item.2) table)) as Hrule.
  { intros. rewrite compute_concat. f_equal. apply map_ext.
    intros [arg val]. apply option_tokens_rule. }
  split_and!.
  - exact Hrule.
  - intros. unfold GlobalOptions.ffmpeg_arguments, GlobalOptions.__init__.
    cbn [GlobalOptions.ffmpeg_arguments_cache fst].
    etrans; [apply Hrule|].
    change (dict.of_items [("stats", "nostats"); ("y", "n")])
      with [("stats", "nostats"); ("y", "n")].
    rewrite dict_of_items_NoDup by compute_done.
    cbn [map concat fst snd]. by rewrite app_nil_r.
  - intros. reflexivity.
Qed.

(** C7.  A table in which every value is [None] renders to nothing: the
    argument list of such a [GlobalOptions] is empty, and for such an
    [OutputStream], whatever its exclusion groups, the read returns a
    dictionary object that holds the empty map. *)
Theorem all_absent_renders_empty {F : Type} (float_str : F -> string) :
  (forall (table : Dict (PyVal F)) (doubly : Dict string),
     Forall (fun item => item.2 = PNone) table ->
     (GlobalOptions.ffmpeg_arguments float_str
        (GlobalOptions.Build table doubly None)).1 = []) /\
  (forall (self : OutputStream.t) (w : World F) (table : Dict (PyVal F)),
     OutputStream.ffmpeg_arguments_cache self = None ->
     dicts w !! OutputStream._options self = Some table ->
     Forall (fun item => item.2 = PNone) table ->
     exists r self' w',
       OutputStream.ffmpeg_arguments self w = (inr (r, self'), w') /\
       dicts w' !! r = Some []).
Proof.
  split.
  - intros table doubly Hall. unfold GlobalOptions.ffmpeg_arguments. simpl.
    rewrite compute_concat.
    induction Hall as [|[arg val] table Hval _ IH]; [done|].
    simpl in *. subst val. by rewrite IH.
  - intros self w table Hc Hl Hall.
    assert (OutputStream.filter_options table = []) as Hempty.
    { unfold OutputStream.filter_options.
      replace (List.filter _ table) with (@nil (string * PyVal F)); [done|].
      clear Hl. induction Hall as [|[arg val] table Hval _ IH]; [done|].
      simpl in *. by subst val. }
    unfold OutputStream.ffmpeg_arguments. rewrite Hc.
    unfold OutputStream.compute_ffmpeg_arguments, bind at 1 2, read. rewrite Hl.
    unfold bind at 1, alloc. rewrite Hempty.
    set (w1 := mkWorld (dicts w ++ [[]]) (log w)).
    assert (forall groups,
              for_each groups (OutputStream.process_group (length (dicts w))) w1
              = (inr tt, w1)) as Hloop.
    { induction groups as [|g groups IH]; [done|]. simpl. unfold bind at 1.
      assert (OutputStream.process_group (length (dicts w)) g w1 = (inr tt, w1)) as ->.
      { unfold OutputStream.process_group, bind, read. subst w1. simpl.
        rewrite list_lookup_middle by done.
        replace (List.filter _ g) with (@nil string); [done|].
        clear. induction g as [|k g IH]; [done|]. by simpl. }
      apply IH. }
    unfold bind at 1, OutputStream._process_mutually_exclusive. rewrite Hloop.
    eexists _, _, _. split; [reflexivity|]. subst w1. simpl.
    by apply list_lookup_middle.
Qed.

(** C7 on instances constructed with every argument [None]. *)
Lemma all_absent_renders_empty_witness :
  (GlobalOptions.ffmpeg_arguments float_text
     (GlobalOptions.Build
        (GlobalOptions._options
           (GlobalOptions.__init__ PNone PNone PNone PNone PNone PNone PNone PNone
              PNone PNone PNone PNone PNone PNone PNone PNone))
        [("stats", "nostats"); ("y", "n")] None)).1 = []
  /\ exists r self' w',
       OutputStream.ffmpeg_arguments (F := FloatText)
         (OutputStream.Build 0 [["t"; "to"]] None)
         (mkWorld [[("filename", PNone); ("t", PNone); ("to", PNone)]] [])
       = (inr (r, self'), w') /\
       dicts w' !! r = Some [].
Proof.
  split.
  - apply (proj1 (all_absent_renders_empty float_text)).
    repeat constructor.
  - apply (proj2 (all_absent_renders_empty float_text) _ _
             [("filename", PNone); ("t", PNone); ("to", PNone)]).
    + reflexivity.
    + reflexivity.
    + repeat constructor.
Defined.

(** C8.  For a name the registry does not hold, [generate_output_stream]
    returns [None] without raising, having written one error record to the
    log and nothing else; for a name the registry holds it never returns
    [None]: it returns the node [ffmpeg.output] made, or an exception
    propagates from the constructor or from [ffmpeg.output]. *)
Theorem unknown_stream_yields_none {F Node : Type}
    (ffmpeg_output : list (PyVal F) -> Dict (PyVal F) -> PyExc + Node)
    (registry : gmap string (Dict (PyVal F) -> M F OutputStream.t))
    (name : string) (args : list (PyVal F)) (kwargs : Dict (PyVal F))
    (w : World F) :
  (registry !! name = None ->
     generate_output_stream ffmpeg_output registry name args kwargs w
     = (inr None,
        mkWorld (dicts w) (log w ++ [(ERROR, UnableToFind name kwargs)]))) /\
  (is_Some (registry !! name) ->
     (generate_output_stream ffmpeg_output registry name args kwargs w).1
     ≠ inr None).
Proof.
  unfold generate_output_stream. split.
  - by intros ->.
  - intros [stream ->]. unfold bind, lift, ret.
    destruct (stream kwargs w) as [[e|self] w1]; [done|].
    destruct (OutputStream.ffmpeg_arguments self w1) as [[e|r] w2]; [done|].
    destruct (read r.1 w2) as [[e|keywords] w3]; [done|].
    by destruct (ffmpeg_output args keywords).
Qed.

(** C8 on a registry that holds the class under ["other-stream"]: the name
    ["webcam"] is unknown, and the registered name yields a node. *)
Lemma unknown_stream_yields_none_witness :
  generate_output_stream (F := FloatText)
    (fun args keywords => @inr PyExc _ (args, keywords))
    {[ "other-stream" := OutputStream.new ]} "webcam" []
    [("filename", PStr "out.mp4")] (mkWorld [] [])
  = (inr None,
     mkWorld [] [(ERROR, UnableToFind "webcam" [("filename", PStr "out.mp4")])])
  /\ (generate_output_stream (F := FloatText)
        (fun args keywords => @inr PyExc _ (args, keywords))
        {[ "other-stream" := OutputStream.new ]} "other-stream" []
        [("filename", PStr "out.mp4")] (mkWorld [] [])).1
     ≠ inr None.
Proof.
  split.
  - apply (proj1 (unknown_stream_yields_none
                    (fun args keywords => @inr PyExc _ (args, keywords))
                    {[ "other-stream" := OutputStream.new ]} "webcam" []
                    [("filename", PStr "out.mp4")] (mkWorld [] []))).
    reflexivity.
  - apply (proj2 (unknown_stream_yields_none
                    (fun args keywords => @inr PyExc _ (args, keywords))
                    {[ "other-stream" := OutputStream.new ]} "other-stream" []
                    [("filename", PStr "out.mp4")] (mkWorld [] []))).
    by eexists.
Defined.

(** C9.  Reading [ffmpeg_arguments] of any [OutputStream], in any world and
    whatever the outcome, leaves every dictionary object that existed
    before as it was, the option table among them, and leaves the instance
    naming the same table.  For a freshly constructed stream the table
    after the read is the table [__init__] wrote, with ["to"] still in it
    when the rendered map has lost it. *)
Theorem rendering_keeps_options {F : Type} :
  (forall (self : OutputStream.t) (w : World F),
     dicts (OutputStream.ffmpeg_arguments self w).2 !! OutputStream._options self
     = dicts w !! OutputStream._options self /\
     (forall l, (l < length (dicts w))%nat ->
        dicts (OutputStream.ffmpeg_arguments self w).2 !! l = dicts w !! l) /\
     (forall r self',
        (OutputStream.ffmpeg_arguments self w).1 = inr (r, self') ->
        OutputStream._options self' = OutputStream._options self)) /\
  (forall (filename fmt video_codec audio_codec file_size duration end_position
           seek_position timestamp target preset framerate video_size aspect_ratio
           pixel_format sample_rate channels sample_format fourcc minimum_rate
           maximum_rate buffer_size : PyVal F) (w : World F),
     exists r self' w',
       bind (OutputStream.__init__ filename fmt video_codec audio_codec file_size
               duration end_position seek_position timestamp target preset
               framerate video_size aspect_ratio pixel_format sample_rate channels
               sample_format fourcc minimum_rate maximum_rate buffer_size)
            OutputStream.ffmpeg_arguments w
       = (inr (r, self'), w') /\
       r ≠ OutputStream._options self' /\
       dicts w' !! OutputStream._options self'
       = Some [("filename", filename); ("format", fmt); ("fs", file_size);
               ("vcodec", video_codec); ("acodec", audio_codec); ("t", duration);
               ("to", end_position); ("ss", seek_position); ("timestamp", timestamp);
               ("target", target); ("pre", preset); ("framerate", framerate);
               ("s", video_size); ("aspect", aspect_ratio); ("pix_fmt", pixel_format);
               ("ar", sample_rate); ("ac", channels); ("sample_fmt", sample_format);
               ("atag", fourcc); ("minrate", minimum_rate); ("maxrate", maximum_rate);
               ("bufsize", buffer_size)]).
Proof.
  split.
  - intros self w.
    assert (forall l, (l < length (dicts w))%nat ->
              dicts (OutputStream.ffmpeg_arguments self w).2 !! l = dicts w !! l)
      as Hframe.
    { intros l Hlt. unfold OutputStream.ffmpeg_arguments.
      destruct (OutputStream.ffmpeg_arguments_cache self); [done|].
      unfold OutputStream.compute_ffmpeg_arguments, bind at 1 2, read.
      destruct (dicts w !! OutputStream._options self) as [table|]; [|done].
      unfold bind at 1, alloc. unfold bind at 1.
      pose proof (_process_mutually_exclusive_frame self (length (dicts w))
                    (mkWorld (dicts w ++ [OutputStream.filter_options table]) (log w)))
        as [_ Hsame].
      destruct (OutputStream._process_mutually_exclusive _ _ _) as [[e|[]] w2];
        simpl in *; (rewrite Hsame by lia); by apply lookup_app_l. }
    split_and!.
    + destruct (decide (OutputStream._options self < length (dicts w))%nat) as [|Hge].
      { by apply Hframe. }
      unfold OutputStream.ffmpeg_arguments.
      destruct (OutputStream.ffmpeg_arguments_cache self); [done|].
      unfold OutputStream.compute_ffmpeg_arguments, bind at 1 2, read.
      destruct (dicts w !! OutputStream._options self) eqn:E; [|done].
      apply lookup_lt_Some in E. lia.
    + done.
    + intros r self'. unfold OutputStream.ffmpeg_arguments.
      destruct (OutputStream.ffmpeg_arguments_cache self).
      { unfold ret. by intros [= <- <-]. }
      unfold bind at 1.
      destruct (OutputStream.compute_ffmpeg_arguments self w) as [[e|r0] w0];
        [done|].
      unfold ret. by intros [= <- <-].
  - intros. rewrite construct_render_run. eexists _, _, _.
    split; [reflexivity|]. simpl. split; [lia|].
    apply (list_lookup_middle _ [_]). done.
Qed.

(** C9 on a stream with both [duration] and [end_position] set, where the
    read deletes ["to"] from the map it returns. *)
Lemma rendering_keeps_options_witness :
  dicts (OutputStream.ffmpeg_arguments (F := FloatText)
           (OutputStream.Build 0 [["t"; "to"]] None)
           (mkWorld [[("filename", PStr "out.mp4"); ("t", PStr "10");
                      ("to", PStr "20")]] [])).2 !! 0
  = Some [("filename", PStr "out.mp4"); ("t", PStr "10"); ("to", PStr "20")].
Proof.
  apply (proj1 (proj2 (proj1 rendering_keeps_options
           (OutputStream.Build 0 [["t"; "to"]] None)
           (mkWorld [[("filename", PStr "out.mp4"); ("t", PStr "10");
                      ("to", PStr "20")]] []))) 0).
  simpl. lia.
Defined.

(** C10.  The [sudo] argument does not reach the option table: two
    constructions that differ in [sudo] only make equal instances, so their
    argument lists are equal; and two calls with keyword arguments that
    differ in the value given to ['sudo'] only have the same outcome, the
    same exception or the same argument list. *)
Theorem sudo_has_no_effect {F : Type} (float_str : F -> string) :
  (forall filter_thread_count show_stats send_progress show_timestamps
          show_qp_histogram show_benchmark show_benchmark_verbose exit_time_limit
          dump_input_stderr dump_payload_stderr filter_complex_thread_count
          dump_sdp_file abort_on_flags exit_on_error overwrite_output
          sudo1 sudo2 : PyVal F,
     (GlobalOptions.ffmpeg_arguments float_str
        (GlobalOptions.__init__ filter_thread_count show_stats send_progress
           show_timestamps show_qp_histogram show_benchmark show_benchmark_verbose
           exit_time_limit dump_input_stderr dump_payload_stderr
           filter_complex_thread_count dump_sdp_file abort_on_flags exit_on_error
           overwrite_output sudo1)).1
     = (GlobalOptions.ffmpeg_arguments float_str
          (GlobalOptions.__init__ filter_thread_count show_stats send_progress
             show_timestamps show_qp_histogram show_benchmark show_benchmark_verbose
             exit_time_limit dump_input_stderr dump_payload_stderr
             filter_complex_thread_count dump_sdp_file abort_on_flags exit_on_error
             overwrite_output sudo2)).1) /\
  (forall (kwargs : Dict (PyVal F)) (sudo1 sudo2 : PyVal F),
     rendered float_str (GlobalOptions.new (dict.set "sudo" sudo1 kwargs))
     = rendered float_str (GlobalOptions.new (dict.set "sudo" sudo2 kwargs))).
Proof.
  split; [done|].
  intros kwargs sudo1 sudo2. f_equal. unfold GlobalOptions.new, bind_kwargs.
  rewrite (unexpected_keywords_set _ "sudo" sudo1 sudo2).
  destruct (unexpected_keywords _ _); [|done].
  rewrite !bind_parameters_defaults by (repeat constructor; by eexists).
  rewrite !param_bound, !dict_get_set. reflexivity.
Qed.

(** * Further properties of the code *)

(** ** The resolver over all groups of an instance *)

Section resolver_facts.
Context {F : Type}.
Implicit Types (w : World F) (l : loc) (d m : Dict (PyVal F)) (g : list string)
  (groups : list (list string)).

Lemma filter_sublist {A} (p : A -> bool) (xs : list A) :
  List.filter p xs `sublist_of` xs.
Proof.
  induction xs as [|x xs IH]; simpl; [done|].
  destruct (p x); by constructor.
Qed.

Lemma resolve_group_sublist {V} g (d : Dict V) : resolve_group g d `sublist_of` d.
Proof.
  unfold resolve_group. destruct (_ <=? _)%nat; [done|]. apply filter_sublist.
Qed.

Lemma sublist_wf {V} (d' d : Dict V) : d' `sublist_of` d -> dict.wf d -> dict.wf d'.
Proof.
  unfold dict.wf, dict.keys. intros Hsub Hd. apply (sublist_NoDup _ _ Hd).
  by apply fmap_sublist.
Qed.

Lemma resolve_groups_sublist {V} groups (d : Dict V) :
  resolve_groups groups d `sublist_of` d.
Proof.
  unfold resolve_groups. revert d.
  induction groups as [|g groups IH]; intros d; simpl; [done|].
  etrans; [apply IH | apply resolve_group_sublist].
Qed.

Lemma sublist_mem {V} (d' d : Dict V) k :
  d' `sublist_of` d -> dict.mem k d' = true -> dict.mem k d = true.
Proof.
  intros Hsub. rewrite !dict_mem_keys. unfold dict.keys.
  intros Hin. eapply elem_of_sublist; [done|]. by apply fmap_sublist.
Qed.

Lemma filter_length_le {A} (p q : A -> bool) (xs : list A) :
  (forall x, p x = true -> q x = true) ->
  (length (List.filter p xs) <= length (List.filter q xs))%nat.
Proof.
  intros Hpq. induction xs as [|x xs IH]; simpl; [done|].
  destruct (p x) eqn:Ep.
  - rewrite (Hpq x Ep). simpl. lia.
  - destruct (q x); simpl; lia.
Qed.

(** Deleting entries cannot make more members of a group present. *)
Lemma present_sublist_length {V} g (d' d : Dict V) :
  d' `sublist_of` d -> (length (present g d') <= length (present g d))%nat.
Proof.
  intros Hsub. apply filter_length_le. intros k. by apply sublist_mem.
Qed.

Lemma filter_at_most_one {A} (p : A -> bool) (x : A) (xs : list A) :
  NoDup xs -> (forall y, y ∈ xs -> p y = true -> y = x) ->
  (length (List.filter p xs) <= 1)%nat.
Proof.
  induction 1 as [|y xs Hy Hnd IH]; intros Hp; simpl; [lia|].
  destruct (p y) eqn:Ey; simpl.
  - assert (y = x) as -> by (apply Hp; [apply list_elem_of_here | done]).
    replace (List.filter p xs) with (@nil A); [simpl; lia|].
    symmetry. clear IH Hnd. induction xs as [|z xs IH]; simpl; [done|].
    apply not_elem_of_cons in Hy as [Hne Hy].
    destruct (p z) eqn:Ez.
    + exfalso. apply Hne. symmetry. apply Hp; [|done].
      by apply list_elem_of_further, list_elem_of_here.
    + apply IH; [done|]. intros y Hin. apply Hp.
      apply elem_of_cons in Hin as [->|Hin]; [apply list_elem_of_here|].
      by do 2 apply list_elem_of_further.
  - apply IH. intros z Hz. apply Hp. by apply list_elem_of_further.
Qed.

(** Once a group of distinct names is resolved, at most one of its members
    is present. *)
Lemma resolve_group_exclusive {V} g (d : Dict V) :
  NoDup g -> (length (present g (resolve_group g d)) <= 1)%nat.
Proof.
  intros Hg. unfold resolve_group.
  destruct (length (present g d) <=? 1)%nat eqn:E; [by apply Nat.leb_le|].
  assert (NoDup (present g d)) as Hnd.
  { unfold present. rewrite NoDup_ListNoDup in *. by apply List.NoDup_filter. }
  destruct (present g d) as [|first rest] eqn:Hp; [done|].
  apply NoDup_cons in Hnd as [Hfirst _]. simpl tail.
  apply (filter_at_most_one _ first); [done|].
  intros k Hk. unfold dict.mem. rewrite dict_get_discard.
  destruct (bool_decide (k ∈ rest)) eqn:Ek; [done|].
  apply bool_decide_eq_false in Ek. intros Hmem.
  assert (k ∈ present g d) as Hin.
  { unfold present. rewrite list_elem_of_In, filter_In, <- list_elem_of_In. done. }
  rewrite Hp in Hin. apply elem_of_cons in Hin as [->|Hin]; done.
Qed.

(** The method over groups of distinct names: it returns, and acts on the
    dictionary as [resolve_groups] says. *)
Lemma _process_mutually_exclusive_run (self : OutputStream.t) l m w :
  Forall NoDup (OutputStream._mutually_exclusive self) ->
  dicts w !! l = Some m -> dict.wf m ->
  OutputStream._process_mutually_exclusive self l w
  = (inr tt,
     mkWorld (<[l := resolve_groups (OutputStream._mutually_exclusive self) m]> (dicts w))
             (log w ++ resolve_logs (OutputStream._mutually_exclusive self) m)).
Proof.
  unfold OutputStream._process_mutually_exclusive, resolve_groups.
  generalize (OutputStream._mutually_exclusive self). intros groups Hall.
  revert m w. induction Hall as [|g groups Hg _ IH]; intros m w Hl Hm; simpl.
  - rewrite list_insert_id, app_nil_r by done. unfold ret. by rewrite world_eta.
  - unfold bind. rewrite (process_group_run l g m w Hl Hm Hg).
    rewrite (IH (resolve_group g m)); simpl.
    + by rewrite list_insert_insert_eq, app_assoc.
    + apply list_lookup_insert_eq. by eapply lookup_lt_Some.
    + eapply sublist_wf; [apply resolve_group_sublist | done].
Qed.

Lemma resolve_groups_exclusive {V} groups (d : Dict V) :
  Forall NoDup groups ->
  Forall (fun g => (length (present g (resolve_groups groups d)) <= 1)%nat) groups.
Proof.
  unfold resolve_groups. intros Hall. revert d.
  induction Hall as [|g groups Hg _ IH]; intros d; simpl; [done|].
  constructor; [|apply IH].
  etrans; [apply present_sublist_length, (resolve_groups_sublist groups)|].
  by apply resolve_group_exclusive.
Qed.

(** Resolving a group with at most one member present does nothing. *)
Lemma process_group_idle l g m w :
  dicts w !! l = Some m -> (length (present g m) <= 1)%nat ->
  OutputStream.process_group l g w = (inr tt, w).
Proof.
  intros Hl Hlen. unfold OutputStream.process_group, bind, read. rewrite Hl.
  fold (present g m). apply Nat.leb_le in Hlen. by rewrite Hlen.
Qed.
End resolver_facts.

Section resolver_extras.
Context {F : Type}.
Implicit Types (w : World F) (l : loc) (d m table : Dict (PyVal F)).

Lemma for_each_idle {A} (xs : list A) (body : A -> M F unit) w :
  Forall (fun x => body x w = (inr tt, w)) xs ->
  for_each xs body w = (inr tt, w).
Proof.
  induction 1 as [|x xs Hx _ IH]; simpl; [done|].
  unfold bind. by rewrite Hx.
Qed.

(** The first read of [ffmpeg_arguments] on an instance whose groups have
    distinct names. *)
Lemma ffmpeg_arguments_first_read_groups (self : OutputStream.t) w table :
  OutputStream.ffmpeg_arguments_cache self = None ->
  Forall NoDup (OutputStream._mutually_exclusive self) ->
  dicts w !! OutputStream._options self = Some table ->
  OutputStream.ffmpeg_arguments self w
  = (inr (length (dicts w), with_cache self (length (dicts w))),
     mkWorld (dicts w ++ [resolve_groups (OutputStream._mutually_exclusive self)
                            (OutputStream.filter_options table)])
             (log w ++ resolve_logs (OutputStream._mutually_exclusive self)
                         (OutputStream.filter_options table))).
Proof.
  intros Hc Hgs Hl.
  unfold OutputStream.ffmpeg_arguments. rewrite Hc.
  unfold OutputStream.compute_ffmpeg_arguments, bind at 1 2, read. rewrite Hl.
  unfold bind at 1, alloc. unfold bind at 1.
  rewrite (_process_mutually_exclusive_run self _ (OutputStream.filter_options table));
    [|done|simpl; by rewrite list_lookup_middle|apply filter_options_wf].
  unfold ret. simpl. f_equal.
  by rewrite insert_app_r_alt, Nat.sub_diag by done.
Qed.

Lemma filter_options_no_None table :
  dict.wf table ->
  Forall (fun item => is_None item.2 = false) (OutputStream.filter_options table).
Proof.
  intros Hwf. rewrite filter_options_filter by done.
  apply Forall_forall. intros item.
  rewrite list_elem_of_In, filter_In. intros [_ H]. by destruct (is_None item.2).
Qed.

Lemma sublist_Forall {A} (P : A -> Prop) (xs ys : list A) :
  xs `sublist_of` ys -> Forall P ys -> Forall P xs.
Proof.
  intros Hsub Hall. apply Forall_forall. intros x Hx.
  rewrite Forall_forall in Hall. apply Hall. by eapply elem_of_sublist.
Qed.
End resolver_extras.

(** X1.  On an instance whose groups each name distinct flags, and a
    dictionary [m] (no key twice) stored at [l], [_process_mutually_exclusive]
    returns without raising; it changes no dictionary but the one at [l];
    what it leaves there is a sub-sequence of [m] (entries are only deleted,
    never added, changed or moved); and of every group at most one member
    is still present. *)
Theorem resolver_establishes_exclusion {F : Type} (self : OutputStream.t)
    (l : loc) (m : Dict (PyVal F)) (w : World F) :
  Forall NoDup (OutputStream._mutually_exclusive self) ->
  dict.wf m -> dicts w !! l = Some m ->
  exists w' m',
    OutputStream._process_mutually_exclusive self l w = (inr tt, w') /\
    same_except l w w' /\
    dicts w' !! l = Some m' /\
    m' `sublist_of` m /\
    Forall (fun group => (length (present group m') <= 1)%nat)
      (OutputStream._mutually_exclusive self).
Proof.
  intros Hgs Hm Hl.
  eexists _, _. split; [by apply _process_mutually_exclusive_run|].
  assert (l < length (dicts w))%nat as Hlt by by eapply lookup_lt_Some.
  split_and!.
  - split; simpl; [apply length_insert|].
    intros l' Hl'. by apply list_lookup_insert_ne.
  - simpl. by apply list_lookup_insert_eq.
  - apply resolve_groups_sublist.
  - by apply resolve_groups_exclusive.
Qed.

(** X1 on two overlapping groups, [("t", "to")] and [("ss", "t")], over a
    map that holds all three flags. *)
Lemma resolver_establishes_exclusion_witness :
  exists w' m',
    OutputStream._process_mutually_exclusive (F := FloatText)
      (OutputStream.Build 0 [["t"; "to"]; ["ss"; "t"]] None) 1
      (mkWorld [[]; [("t", PStr "10"); ("to", PStr "20"); ("ss", PStr "5")]] [])
    = (inr tt, w') /\
    same_except 1
      (mkWorld [[]; [("t", PStr "10"); ("to", PStr "20"); ("ss", PStr "5")]] []) w' /\
    dicts w' !! 1 = Some m' /\
    m' `sublist_of` [("t", PStr "10"); ("to", PStr "20"); ("ss", PStr "5")] /\
    Forall (fun group => (length (present group m') <= 1)%nat)
      [["t"; "to"]; ["ss"; "t"]].
Proof.
  apply (resolver_establishes_exclusion
           (OutputStream.Build 0 [["t"; "to"]; ["ss"; "t"]] None) 1
           [("t", PStr "10"); ("to", PStr "20"); ("ss", PStr "5")]).
  - simpl. compute_done.
  - unfold dict.wf, dict.keys. compute_done.
  - reflexivity.
Defined.

(** X2.  The resolver is idempotent: run again on the world it left, over
    the same dictionary, it returns and changes nothing, not even the log. *)
Theorem resolver_idempotent {F : Type} (self : OutputStream.t)
    (l : loc) (m : Dict (PyVal F)) (w : World F) :
  Forall NoDup (OutputStream._mutually_exclusive self) ->
  dict.wf m -> dicts w !! l = Some m ->
  exists w',
    OutputStream._process_mutually_exclusive self l w = (inr tt, w') /\
    OutputStream._process_mutually_exclusive self l w' = (inr tt, w').
Proof.
  intros Hgs Hm Hl.
  eexists. split; [by apply _process_mutually_exclusive_run|].
  apply for_each_idle.
  assert (l < length (dicts w))%nat as Hlt by by eapply lookup_lt_Some.
  pose proof (resolve_groups_exclusive (OutputStream._mutually_exclusive self) m Hgs)
    as Hex.
  eapply Forall_impl; [exact Hex|]. intros g Hg. simpl in Hg.
  eapply process_group_idle; [|exact Hg].
  simpl. by apply list_lookup_insert_eq.
Qed.

(** X2 on the group of the program and a map that holds both flags. *)
Lemma resolver_idempotent_witness :
  exists w',
    OutputStream._process_mutually_exclusive (F := FloatText)
      (OutputStream.Build 0 [["t"; "to"]] None) 0
      (mkWorld [[("t", PStr "10"); ("to", PStr "20")]] [])
    = (inr tt, w') /\
    OutputStream._process_mutually_exclusive
      (OutputStream.Build 0 [["t"; "to"]] None) 0 w' = (inr tt, w').
Proof.
  apply (resolver_idempotent (OutputStream.Build 0 [["t"; "to"]] None) 0
           [("t", PStr "10"); ("to", PStr "20")]).
  - simpl. compute_done.
  - unfold dict.wf, dict.keys. compute_done.
  - reflexivity.
Defined.

(** X3.  The first read of [ffmpeg_arguments] on an instance whose groups
    each name distinct flags returns a dictionary object that did not exist
    before and stores it in the instance.  The map it holds is a
    sub-sequence of the option table (same entries, same order), no value in
    it is [None], and of every group at most one member is in it. *)
Theorem rendered_map_sound {F : Type} (self : OutputStream.t)
    (w : World F) (table : Dict (PyVal F)) :
  OutputStream.ffmpeg_arguments_cache self = None ->
  Forall NoDup (OutputStream._mutually_exclusive self) ->
  dicts w !! OutputStream._options self = Some table -> dict.wf table ->
  exists r self' w' m,
    OutputStream.ffmpeg_arguments self w = (inr (r, self'), w') /\
    dicts w !! r = None /\
    OutputStream.ffmpeg_arguments_cache self' = Some r /\
    dicts w' !! r = Some m /\
    m `sublist_of` table /\
    Forall (fun item => is_None item.2 = false) m /\
    Forall (fun group => (length (present group m) <= 1)%nat)
      (OutputStream._mutually_exclusive self).
Proof.
  intros Hc Hgs Hl Hwf.
  eexists _, _, _, _. split; [by apply ffmpeg_arguments_first_read_groups|].
  assert (resolve_groups (OutputStream._mutually_exclusive self)
            (OutputStream.filter_options table)
          `sublist_of` OutputStream.filter_options table) as Hsub
    by apply resolve_groups_sublist.
  split_and!.
  - by apply lookup_ge_None_2.
  - done.
  - simpl. by apply list_lookup_middle.
  - etrans; [exact Hsub|]. rewrite filter_options_filter by done.
    apply filter_sublist.
  - eapply sublist_Forall; [exact Hsub|]. by apply filter_options_no_None.
  - by apply resolve_groups_exclusive.
Qed.

(** X3 on an instance as [__init__] leaves it. *)
Lemma rendered_map_sound_witness :
  exists r self' w' m,
    OutputStream.ffmpeg_arguments (F := FloatText)
      (OutputStream.Build 0 [["t"; "to"]] None)
      (mkWorld [[("filename", PStr "out.mp4"); ("format", PNone);
                 ("t", PStr "10"); ("to", PStr "20")]] [])
    = (inr (r, self'), w') /\
    dicts (mkWorld (F := FloatText)
             [[("filename", PStr "out.mp4"); ("format", PNone);
               ("t", PStr "10"); ("to", PStr "20")]] []) !! r = None /\
    OutputStream.ffmpeg_arguments_cache self' = Some r /\
    dicts w' !! r = Some m /\
    m `sublist_of` [("filename", PStr "out.mp4"); ("format", PNone);
                    ("t", PStr "10"); ("to", PStr "20")] /\
    Forall (fun item => is_None item.2 = false) m /\
    Forall (fun group => (length (present group m) <= 1)%nat) [["t"; "to"]].
Proof.
  apply (rendered_map_sound (OutputStream.Build 0 [["t"; "to"]] None)).
  - reflexivity.
  - simpl. compute_done.
  - reflexivity.
  - unfold dict.wf, dict.keys. compute_done.
Defined.

Section constructed_cases.
Context {F : Type}.
Variables filename fmt video_codec audio_codec file_size duration end_position
  seek_position timestamp target preset framerate video_size aspect_ratio
  pixel_format sample_rate channels sample_format fourcc minimum_rate
  maximum_rate buffer_size : PyVal F.

Local Abbreviation display :=
  [("filename", filename); ("format", fmt); ("fs", file_size);
   ("vcodec", video_codec); ("acodec", audio_codec); ("t", duration);
   ("to", end_position); ("ss", seek_position); ("timestamp", timestamp);
   ("target", target); ("pre", preset); ("framerate", framerate);
   ("s", video_size); ("aspect", aspect_ratio); ("pix_fmt", pixel_format);
   ("ar", sample_rate); ("ac", channels); ("sample_fmt", sample_format);
   ("atag", fourcc); ("minrate", minimum_rate); ("maxrate", maximum_rate);
   ("bufsize", buffer_size)].

(** The map rendered from the table [__init__] writes, key by key. *)
Lemma rendered_display_cases :
  dict.get "t" (resolve_group ["t"; "to"] (OutputStream.filter_options display))
  = (if is_None duration then None else Some duration) /\
  dict.get "to" (resolve_group ["t"; "to"] (OutputStream.filter_options display))
  = (if is_None end_position then None
     else if is_None duration then Some end_position else None) /\
  (forall k, k ≠ "to" ->
     dict.get k (resolve_group ["t"; "to"] (OutputStream.filter_options display))
     = match dict.get k display with
       | Some v => if is_None v then None else Some v
       | None => None
       end) /\
  resolve_log (F := F) ["t"; "to"] (OutputStream.filter_options display)
  = (if is_None duration || is_None end_position then []
     else [(INFO, Discarding ["to"])]).
Proof.
  set (table := display).
  assert (dict.wf table) as Hwf by apply display_wf.
  assert (dict.get "t" (OutputStream.filter_options table)
          = if is_None duration then None else Some duration) as Ht
    by by rewrite dict_get_filter_options.
  assert (dict.get "to" (OutputStream.filter_options table)
          = if is_None end_position then None else Some end_position) as Hto
    by by rewrite dict_get_filter_options.
  assert (present ["t"; "to"] (OutputStream.filter_options table)
          = (if is_None duration then [] else ["t"])
            ++ (if is_None end_position then [] else ["to"])) as Hp.
  { unfold present, dict.mem. simpl. rewrite Ht, Hto.
    by destruct (is_None duration), (is_None end_position). }
  clearbody table. unfold resolve_group, resolve_log. rewrite Hp. split_and!.
  - destruct (is_None duration), (is_None end_position); simpl;
      rewrite ?dict_get_discard; done.
  - destruct (is_None duration), (is_None end_position); simpl;
      rewrite ?dict_get_discard; done.
  - intros k Hk. rewrite <- dict_get_filter_options by done.
    destruct (is_None duration), (is_None end_position); simpl; try done.
    rewrite dict_get_discard, bool_decide_eq_false_2; [done|].
    by intros ->%list_elem_of_singleton.
  - by destruct (is_None duration), (is_None end_position).
Qed.
End constructed_cases.


(** X4.  What a freshly constructed [OutputStream] renders, in every case
    of [duration] and [end_position]: the flag ["t"] is in the map exactly
    when [duration] is not [None]; the flag ["to"] is in the map exactly
    when [end_position] is not [None] and [duration] is [None]; every other
    flag is in the map exactly when the constructor argument [__init__]
    stores under it is not [None], with that argument as its value; the map
    has no other key; the option table is the display of [__init__]; and a
    record is logged exactly when both are set. *)
Theorem end_position_needs_absent_duration {F : Type}
    (filename fmt video_codec audio_codec file_size duration end_position
     seek_position timestamp target preset framerate video_size aspect_ratio
     pixel_format sample_rate channels sample_format fourcc minimum_rate
     maximum_rate buffer_size : PyVal F) (w : World F) :
  exists r self' w' m,
    bind (OutputStream.__init__ filename fmt video_codec audio_codec file_size
            duration end_position seek_position timestamp target preset
            framerate video_size aspect_ratio pixel_format sample_rate channels
            sample_format fourcc minimum_rate maximum_rate buffer_size)
         OutputStream.ffmpeg_arguments w
    = (inr (r, self'), w') /\
    dicts w' !! OutputStream._options self'
    = Some [("filename", filename); ("format", fmt); ("fs", file_size);
            ("vcodec", video_codec); ("acodec", audio_codec); ("t", duration);
            ("to", end_position); ("ss", seek_position); ("timestamp", timestamp);
            ("target", target); ("pre", preset); ("framerate", framerate);
            ("s", video_size); ("aspect", aspect_ratio); ("pix_fmt", pixel_format);
            ("ar", sample_rate); ("ac", channels); ("sample_fmt", sample_format);
            ("atag", fourcc); ("minrate", minimum_rate); ("maxrate", maximum_rate);
            ("bufsize", buffer_size)] /\
    dicts w' !! r = Some m /\
    dict.get "t" m = (if is_None duration then None else Some duration) /\
    dict.get "to" m
    = (if is_None end_position then None
       else if is_None duration then Some end_position else None) /\
    Forall (fun '(flag, value) =>
              dict.get flag m = if is_None value then None else Some value)
      [("filename", filename); ("format", fmt); ("fs", file_size);
       ("vcodec", video_codec); ("acodec", audio_codec); ("ss", seek_position);
       ("timestamp", timestamp); ("target", target); ("pre", preset);
       ("framerate", framerate); ("s", video_size); ("aspect", aspect_ratio);
       ("pix_fmt", pixel_format); ("ar", sample_rate); ("ac", channels);
       ("sample_fmt", sample_format); ("atag", fourcc); ("minrate", minimum_rate);
       ("maxrate", maximum_rate); ("bufsize", buffer_size)] /\
    (forall k,
       k ∉ ["filename"; "format"; "fs"; "vcodec"; "acodec"; "t"; "to"; "ss";
            "timestamp"; "target"; "pre"; "framerate"; "s"; "aspect"; "pix_fmt";
            "ar"; "ac"; "sample_fmt"; "atag"; "minrate"; "maxrate"; "bufsize"] ->
       dict.get k m = None) /\
    log w'
    = log w ++ (if is_None duration || is_None end_position then []
                else [(INFO, Discarding ["to"])]).
Proof.
  rewrite construct_render_run.
  destruct (rendered_display_cases filename fmt video_codec audio_codec file_size
              duration end_position seek_position timestamp target preset
              framerate video_size aspect_ratio pixel_format sample_rate channels
              sample_format fourcc minimum_rate maximum_rate buffer_size)
    as (Ht & Hto & Hother & Hlog).
  set (m := resolve_group _ _) in *.
  match goal with |- context [(inr ?res, ?w1)] => exists res.1, res.2, w1, m end.
  split; [reflexivity|].
  cbn [dicts log OutputStream._options fst snd]. split_and!.
  - apply (list_lookup_middle _ [_]). done.
  - apply lookup_snoc_snoc.
  - exact Ht.
  - exact Hto.
  - repeat (apply Forall_cons_2; [by rewrite Hother by done|]). apply Forall_nil_2.
  - intros k Hk. rewrite Hother; [|by intros ->; apply Hk; set_solver].
    match goal with |- match ?o with _ => _ end = _ =>
      assert (o = None) as -> by (apply dict_get_None; exact Hk) end.
    done.
  - by rewrite Hlog.
Qed.

(** X5.  The property [filename] of a freshly constructed [OutputStream]
    returns the [filename] argument of the constructor (also when that is
    [None]) and never raises, both before and after [ffmpeg_arguments] is
    read; reading it changes nothing. *)
Theorem filename_round_trip {F : Type}
    (filename fmt video_codec audio_codec file_size duration end_position
     seek_position timestamp target preset framerate video_size aspect_ratio
     pixel_format sample_rate channels sample_format fourcc minimum_rate
     maximum_rate buffer_size : PyVal F) (w : World F) :
  exists self w1 r self' w2,
    OutputStream.__init__ filename fmt video_codec audio_codec file_size
      duration end_position seek_position timestamp target preset
      framerate video_size aspect_ratio pixel_format sample_rate channels
      sample_format fourcc minimum_rate maximum_rate buffer_size w
    = (inr self, w1) /\
    OutputStream.filename self w1 = (inr filename, w1) /\
    OutputStream.ffmpeg_arguments self w1 = (inr (r, self'), w2) /\
    OutputStream.filename self' w2 = (inr filename, w2).
Proof.
  pose proof (construct_render_run filename fmt video_codec audio_codec file_size
                duration end_position seek_position timestamp target preset
                framerate video_size aspect_ratio pixel_format sample_rate channels
                sample_format fourcc minimum_rate maximum_rate buffer_size w) as Hrun.
  unfold bind in Hrun. rewrite construct_run in Hrun.
  eexists _, _, _, _, _. split; [apply construct_run|].
  split_and!.
  - unfold OutputStream.filename, bind, read. simpl.
    by rewrite list_lookup_middle.
  - exact Hrun.
  - unfold OutputStream.filename, bind, read. simpl.
    by rewrite (list_lookup_middle _ [_]).
Qed.

(** X6.  Declaring groups one after the other keeps the option table and
    the cache slot, drops every tuple of fewer than two names, and appends
    the others after the groups already declared, in the order of the calls
    (so earlier declarations are resolved first).  Hence if every stored
    group has at least two names, this stays so. *)
Theorem declared_groups_accumulate (self : OutputStream.t)
    (calls : list (list string)) :
  OutputStream._mutually_exclusive
    (fold_left OutputStream._define_mutually_exclusive calls self)
  = OutputStream._mutually_exclusive self
    ++ List.filter (fun args => negb (length args <=? 1)%nat) calls
  /\ OutputStream._options
       (fold_left OutputStream._define_mutually_exclusive calls self)
     = OutputStream._options self
  /\ OutputStream.ffmpeg_arguments_cache
       (fold_left OutputStream._define_mutually_exclusive calls self)
     = OutputStream.ffmpeg_arguments_cache self
  /\ (Forall (fun group => (2 <= length group)%nat)
        (OutputStream._mutually_exclusive self) ->
      Forall (fun group => (2 <= length group)%nat)
        (OutputStream._mutually_exclusive
           (fold_left OutputStream._define_mutually_exclusive calls self))).
Proof.
  assert (OutputStream._mutually_exclusive
            (fold_left OutputStream._define_mutually_exclusive calls self)
          = OutputStream._mutually_exclusive self
            ++ List.filter (fun args => negb (length args <=? 1)%nat) calls
          /\ OutputStream._options
               (fold_left OutputStream._define_mutually_exclusive calls self)
             = OutputStream._options self
          /\ OutputStream.ffmpeg_arguments_cache
               (fold_left OutputStream._define_mutually_exclusive calls self)
             = OutputStream.ffmpeg_arguments_cache self) as (Hg & Ho & Hc).
  { revert self. induction calls as [|args calls IH]; intros self; simpl.
    - by rewrite app_nil_r.
    - destruct (IH (OutputStream._define_mutually_exclusive self args))
        as (Hg & Ho & Hc).
      rewrite Hg, Ho, Hc. unfold OutputStream._define_mutually_exclusive.
      destruct (length args <=? 1)%nat; simpl; [done|].
      by rewrite <- app_assoc. }
  split_and!; try done.
  intros Hall. rewrite Hg. apply Forall_app. split; [done|].
  apply Forall_forall. intros args.
  rewrite list_elem_of_In, filter_In. intros [_ Hlen].
  destruct (length args <=? 1)%nat eqn:E; [done|]. apply Nat.leb_gt in E. lia.
Qed.

(** X6 on the instance [__init__] makes, with three further declarations. *)
Lemma declared_groups_accumulate_witness :
  Forall (fun group => (2 <= length group)%nat)
    (OutputStream._mutually_exclusive
       (fold_left OutputStream._define_mutually_exclusive
          [["ss"]; ["ar"; "ac"]; []]
          (OutputStream.Build 0 [["t"; "to"]] None))).
Proof.
  apply (proj2 (proj2 (proj2 (declared_groups_accumulate
           (OutputStream.Build 0 [["t"; "to"]] None)
           [["ss"]; ["ar"; "ac"]; []])))).
  simpl. repeat constructor.
Defined.

(** ** Calls with keyword arguments *)

Section binding_facts.
Context {F : Type}.
Implicit Types (sig : Signature F) (kwargs : Dict (PyVal F)).

Lemma unexpected_keywords_nil sig kwargs :
  unexpected_keywords sig kwargs = []
  <-> Forall (fun k => k ∈ dict.keys sig) (dict.keys kwargs).
Proof.
  unfold unexpected_keywords. generalize (dict.keys kwargs). intros ks.
  induction ks as [|k ks IH]; simpl.
  - split; [constructor | done].
  - destruct (dict.mem k sig) eqn:E; simpl.
    + rewrite Forall_cons, IH. apply dict_mem_keys in E. tauto.
    + split; [done|]. intros [Hk _]%Forall_cons.
      apply dict_mem_keys in Hk. congruence.
Qed.

Lemma unexpected_keywords_cons sig kwargs :
  Exists (fun k => k ∉ dict.keys sig) (dict.keys kwargs) ->
  exists k ks, unexpected_keywords sig kwargs = k :: ks.
Proof.
  intros Hex. destruct (unexpected_keywords sig kwargs) as [|k ks] eqn:E; [|eauto].
  apply unexpected_keywords_nil in E. rewrite Forall_forall in E.
  apply Exists_exists in Hex as (k & Hin & Hk). destruct Hk. by apply E.
Qed.
End binding_facts.

(** X7.  [generate_global_options] accepts exactly the sixteen parameter
    names of [GlobalOptions.__init__] as keywords.  If every keyword is one of
    them it never raises in the constructor: it calls [ffmpeg.global_args]
    with the stream and the argument list of an instance in whose table
    each flag holds the value of its keyword, or the parameter's default
    when the keyword is not given.  If some keyword is none of them it
    raises [TypeError].  The [name] argument plays no part. *)
Theorem generate_global_options_outcome {F Stream Node : Type}
    (float_str : F -> string)
    (ffmpeg_global_args : Stream -> list string -> PyExc + Node)
    (name : string) (stream : Stream) (kwargs : Dict (PyVal F)) :
  (Forall (fun k => k ∈ ["filter_thread_count"; "show_stats"; "send_progress";
                          "show_timestamps"; "show_qp_histogram"; "show_benchmark";
                          "show_benchmark_verbose"; "exit_time_limit";
                          "dump_input_stderr"; "dump_payload_stderr";
                          "filter_complex_thread_count"; "dump_sdp_file";
                          "abort_on_flags"; "exit_on_error"; "overwrite_output";
                          "sudo"])
     (dict.keys kwargs) ->
   exists self,
     GlobalOptions.new kwargs = inr self /\
     generate_global_options float_str ffmpeg_global_args name stream kwargs
     = ffmpeg_global_args stream (GlobalOptions.ffmpeg_arguments float_str self).1 /\
     Forall (fun '(flag, keyword, dflt) =>
               dict.get flag (GlobalOptions._options self)
               = Some (match dict.get keyword kwargs with
                       | Some v => v
                       | None => dflt
                       end))
       [("filter_threads", "filter_thread_count", PNone);
        ("stats", "show_stats", PBool true);
        ("progress", "send_progress", PBool false);
        ("debug_ts", "show_timestamps", PBool false);
        ("qphist", "show_qp_histogram", PBool false);
        ("benchmark", "show_benchmark", PBool false);
        ("benchmark_all", "show_benchmark_verbose", PBool false);
        ("timelimit", "exit_time_limit", PNone);
        ("dump", "dump_input_stderr", PBool false);
        ("hex", "dump_payload_stderr", PBool false);
        ("filter_complex_threads", "filter_complex_thread_count", PNone);
        ("sdp_file", "dump_sdp_file", PNone);
        ("abort_on", "abort_on_flags", PNone);
        ("xerror", "exit_on_error", PBool false);
        ("y", "overwrite_output", PBool false)]) /\
  (Exists (fun k => k ∉ ["filter_thread_count"; "show_stats"; "send_progress";
                          "show_timestamps"; "show_qp_histogram"; "show_benchmark";
                          "show_benchmark_verbose"; "exit_time_limit";
                          "dump_input_stderr"; "dump_payload_stderr";
                          "filter_complex_thread_count"; "dump_sdp_file";
                          "abort_on_flags"; "exit_on_error"; "overwrite_output";
                          "sudo"])
     (dict.keys kwargs) ->
   generate_global_options float_str ffmpeg_global_args name stream kwargs
   = inl TypeError).
Proof.
  unfold generate_global_options, GlobalOptions.new, bind_kwargs. split.
  - intros Hall.
    apply (unexpected_keywords_nil GlobalOptions.signature) in Hall.
    rewrite Hall.
    rewrite bind_parameters_defaults by (repeat constructor; by eexists).
    rewrite !param_bound. eexists. split; [reflexivity|]. split; [reflexivity|].
    repeat constructor.
  - intros Hex.
    apply (unexpected_keywords_cons GlobalOptions.signature) in Hex
      as (k & ks & ->). done.
Qed.

(** X7 on a configuration that sets two options, and on one that follows
    the schema's name ['display_stats']. *)
Lemma generate_global_options_outcome_witness :
  (exists self,
     GlobalOptions.new (F := FloatText)
       [("show_stats", PBool false); ("exit_time_limit", PInt 30)] = inr self /\
     generate_global_options float_text
       (fun (stream : string) arguments => @inr PyExc _ (stream, arguments))
       "global" "out"
       [("show_stats", PBool false); ("exit_time_limit", PInt 30)]
     = inr ("out", (GlobalOptions.ffmpeg_arguments float_text self).1))
  /\ generate_global_options float_text
       (fun (stream : string) arguments => @inr PyExc _ (stream, arguments))
       "global" "out" [("display_stats", PBool false)]
     = inl TypeError.
Proof.
  split.
  - destruct (proj1 (generate_global_options_outcome float_text
               (fun (stream : string) arguments => @inr PyExc _ (stream, arguments))
               "global" "out"
               [("show_stats", PBool false); ("exit_time_limit", PInt 30)]))
      as (self & Hnew & Hrun & _).
    + unfold dict.keys. compute_done.
    + by exists self.
  - apply (proj2 (generate_global_options_outcome float_text
               (fun (stream : string) arguments => @inr PyExc _ (stream, arguments))
               "global" "out" [("display_stats", PBool false)])).
    unfold dict.keys. compute_done.
Defined.

Section binding_required.
Context {F : Type}.
Implicit Types (sig : Signature F) (kwargs : Dict (PyVal F)).

(** Binding succeeds when every parameter has a default or a keyword. *)
Lemma bind_parameters_supplied sig kwargs :
  Forall (fun p => is_Some p.2 \/ is_Some (dict.get p.1 kwargs)) sig ->
  bind_parameters sig kwargs
  = inr (map (fun p => (p.1, match dict.get p.1 kwargs with
                             | Some v => v
                             | None => default PNone p.2
                             end)) sig).
Proof.
  induction 1 as [|[p dflt] sig Hp _ IH]; simpl in *; [done|].
  rewrite IH. destruct (dict.get p kwargs) as [v|]; [done|].
  destruct Hp as [[d ->]|[? [=]]]. done.
Qed.

(** Binding raises when a parameter has neither. *)
Lemma bind_parameters_missing sig kwargs :
  Exists (fun p => p.2 = None /\ dict.get p.1 kwargs = None) sig ->
  bind_parameters sig kwargs = inl TypeError.
Proof.
  assert (forall sig', (exists bound, bind_parameters sig' kwargs = inr bound)
                       \/ bind_parameters sig' kwargs = inl TypeError) as Hcases.
  { induction sig' as [|[p dflt] sig' IH]; simpl; [eauto|].
    destruct (match dict.get p kwargs with Some v => Some v | None => dflt end);
      [|by right].
    destruct IH as [[bound ->]| ->]; eauto. }
  induction 1 as [[p dflt] sig [Hd Hk]|[p dflt] sig _ IH]; simpl in *.
  - by rewrite Hk, Hd.
  - rewrite IH. by destruct (match dict.get p kwargs with
                             | Some v => Some v | None => dflt end).
Qed.
End binding_required.

(** X8.  [generate_output_stream] on a name registered for [OutputStream]
    itself.  If every keyword is a parameter of [__init__] and ['filename']
    is among them, the outcome is that of [ffmpeg.output] on the positional
    arguments and a keyword map that holds no [None] and holds, under its
    ffmpeg flag, every option given a value other than [None] (the flag
    ["to"] only when [duration] is absent); no dictionary that existed
    before is changed.  If some keyword is no parameter, or ['filename'] is
    not given, it raises [TypeError], changes nothing and logs nothing. *)
Theorem generate_registered_stream {F Node : Type}
    (ffmpeg_output : list (PyVal F) -> Dict (PyVal F) -> PyExc + Node)
    (registry : gmap string (Dict (PyVal F) -> M F OutputStream.t))
    (name : string) (args : list (PyVal F)) (kwargs : Dict (PyVal F))
    (w : World F) :
  registry !! name = Some OutputStream.new ->
  (Forall (fun k => k ∈ ["filename"; "fmt"; "video_codec"; "audio_codec";
                          "file_size"; "duration"; "end_position"; "seek_position";
                          "timestamp"; "target"; "preset"; "framerate";
                          "video_size"; "aspect_ratio"; "pixel_format";
                          "sample_rate"; "channels"; "sample_format"; "fourcc";
                          "minimum_rate"; "maximum_rate"; "buffer_size"])
     (dict.keys kwargs) ->
   is_Some (dict.get "filename" kwargs) ->
   exists keywords w',
     generate_output_stream ffmpeg_output registry name args kwargs w
     = (match ffmpeg_output args keywords with
        | inl e => inl e
        | inr node => inr (Some node)
        end, w') /\
     (forall l, (l < length (dicts w))%nat -> dicts w' !! l = dicts w !! l) /\
     Forall (fun item => is_None item.2 = false) keywords /\
     Forall (fun '(flag, keyword) =>
               dict.get flag keywords
               = if is_None (param kwargs keyword) then None
                 else Some (param kwargs keyword))
       [("filename", "filename"); ("format", "fmt"); ("fs", "file_size");
        ("vcodec", "video_codec"); ("acodec", "audio_codec"); ("t", "duration");
        ("ss", "seek_position"); ("timestamp", "timestamp"); ("target", "target");
        ("pre", "preset"); ("framerate", "framerate"); ("s", "video_size");
        ("aspect", "aspect_ratio"); ("pix_fmt", "pixel_format");
        ("ar", "sample_rate"); ("ac", "channels"); ("sample_fmt", "sample_format");
        ("atag", "fourcc"); ("minrate", "minimum_rate"); ("maxrate", "maximum_rate");
        ("bufsize", "buffer_size")] /\
     dict.get "to" keywords
     = (if is_None (param kwargs "end_position") then None
        else if is_None (param kwargs "duration")
             then Some (param kwargs "end_position") else None)) /\
  (Exists (fun k => k ∉ ["filename"; "fmt"; "video_codec"; "audio_codec";
                          "file_size"; "duration"; "end_position"; "seek_position";
                          "timestamp"; "target"; "preset"; "framerate";
                          "video_size"; "aspect_ratio"; "pixel_format";
                          "sample_rate"; "channels"; "sample_format"; "fourcc";
                          "minimum_rate"; "maximum_rate"; "buffer_size"])
     (dict.keys kwargs)
   \/ dict.get "filename" kwargs = None ->
   generate_output_stream ffmpeg_output registry name args kwargs w
   = (inl TypeError, w)).
Proof.
  intros Hreg. unfold generate_output_stream. rewrite Hreg. split.
  - intros Hall Hfile.
    apply (unexpected_keywords_nil OutputStream.signature) in Hall.
    assert (OutputStream.new kwargs w
            = OutputStream.__init__ (param kwargs "filename") (param kwargs "fmt")
                (param kwargs "video_codec") (param kwargs "audio_codec")
                (param kwargs "file_size") (param kwargs "duration")
                (param kwargs "end_position") (param kwargs "seek_position")
                (param kwargs "timestamp") (param kwargs "target")
                (param kwargs "preset") (param kwargs "framerate")
                (param kwargs "video_size") (param kwargs "aspect_ratio")
                (param kwargs "pixel_format") (param kwargs "sample_rate")
                (param kwargs "channels") (param kwargs "sample_format")
                (param kwargs "fourcc") (param kwargs "minimum_rate")
                (param kwargs "maximum_rate") (param kwargs "buffer_size") w)
      as Hnew.
    { unfold OutputStream.new, bind at 1, lift, bind_kwargs. rewrite Hall.
      rewrite bind_parameters_supplied.
      - rewrite !param_bound. reflexivity.
      - constructor; [by right|].
        repeat (apply Forall_cons_2; [left; by eexists|]). apply Forall_nil_2. }
    unfold bind at 1. rewrite Hnew, construct_run.
    unfold bind at 1.
    erewrite (ffmpeg_arguments_first_read _ _ _ ["t"; "to"]);
      [|done|done|compute_done|simpl; by rewrite list_lookup_middle].
    unfold bind at 1, read. cbn [fst dicts].
    rewrite length_app, Nat.add_1_r, <- app_assoc. cbn [app].
    rewrite lookup_snoc_snoc.
    destruct (rendered_display_cases (param kwargs "filename") (param kwargs "fmt")
                (param kwargs "video_codec") (param kwargs "audio_codec")
                (param kwargs "file_size") (param kwargs "duration")
                (param kwargs "end_position") (param kwargs "seek_position")
                (param kwargs "timestamp") (param kwargs "target")
                (param kwargs "preset") (param kwargs "framerate")
                (param kwargs "video_size") (param kwargs "aspect_ratio")
                (param kwargs "pixel_format") (param kwargs "sample_rate")
                (param kwargs "channels") (param kwargs "sample_format")
                (param kwargs "fourcc") (param kwargs "minimum_rate")
                (param kwargs "maximum_rate") (param kwargs "buffer_size"))
      as (Ht & Hto & Hother & _).
    set (keywords := resolve_group _ _) in *.
    match goal with |- context [bind _ _ ?w1] => exists keywords, w1 end.
    split_and!.
    + unfold bind, lift, ret. by destruct (ffmpeg_output args keywords).
    + intros l Hl. simpl. by apply lookup_app_l.
    + eapply sublist_Forall; [apply resolve_group_sublist|].
      apply filter_options_no_None, display_wf.
    + repeat constructor; try (rewrite Hother by done; reflexivity).
    + exact Hto.
  - intros Hbad. unfold bind at 1, OutputStream.new, bind at 1, lift, bind_kwargs.
    destruct (unexpected_keywords OutputStream.signature kwargs) as [|k ks] eqn:E;
      [|done].
    destruct Hbad as [Hex|Hmissing].
    + apply (unexpected_keywords_cons OutputStream.signature) in Hex
        as (k & ks & Hex). congruence.
    + rewrite bind_parameters_missing; [done|].
      apply Exists_cons_hd. by split.
Qed.

(** X8 on a registry that holds the class under ["other-stream"]: a call
    that sets both [duration] and [end_position], and a call without
    ['filename']. *)
Lemma generate_registered_stream_witness :
  (exists keywords w',
     generate_output_stream (F := FloatText)
       (fun args keywords => @inr PyExc _ (args, keywords))
       {[ "other-stream" := OutputStream.new ]} "other-stream" []
       [("filename", PStr "out.mp4"); ("duration", PStr "10");
        ("end_position", PStr "20")] (mkWorld [] [])
     = (inr (Some ([], keywords)), w') /\
     dict.get "to" keywords = None)
  /\ generate_output_stream (F := FloatText)
       (fun args keywords => @inr PyExc _ (args, keywords))
       {[ "other-stream" := OutputStream.new ]} "other-stream" []
       [("duration", PStr "10")] (mkWorld [] [])
     = (inl TypeError, mkWorld [] []).
Proof.
  split.
  - destruct (generate_registered_stream (F := FloatText)
                (fun args keywords => @inr PyExc _ (args, keywords))
                {[ "other-stream" := OutputStream.new ]} "other-stream" []
                [("filename", PStr "out.mp4"); ("duration", PStr "10");
                 ("end_position", PStr "20")] (mkWorld [] []))
      as [Hgood _]; [apply lookup_singleton_eq|].
    destruct Hgood as (keywords & w' & Hrun & _ & _ & _ & Hto).
    + unfold dict.keys. compute_done.
    + by eexists.
    + exists keywords, w'. split; [exact Hrun | exact Hto].
  - destruct (generate_registered_stream (F := FloatText)
                (fun args keywords => @inr PyExc _ (args, keywords))
                {[ "other-stream" := OutputStream.new ]} "other-stream" []
                [("duration", PStr "10")] (mkWorld [] []))
      as [_ Hbad]; [apply lookup_singleton_eq|].
    apply Hbad. by right.
Defined.

(** ** [utils.py] *)

(** X9.  [register] returns the object it was given and records it under
    the name: afterwards [generate_output_stream] on that name behaves as
    with a registry that holds this one entry only (so a later registration
    under a name replaces an earlier one), and on every other name as
    before the registration. *)
Theorem registered_class_is_found {F Node : Type}
    (ffmpeg_output : list (PyVal F) -> Dict (PyVal F) -> PyExc + Node)
    (registry : gmap string (Dict (PyVal F) -> M F OutputStream.t))
    (name other : string) (earlier cls : Dict (PyVal F) -> M F OutputStream.t)
    (args : list (PyVal F)) (kwargs : Dict (PyVal F)) (w : World F) :
  (utils.register registry name cls).1 = cls /\
  generate_output_stream ffmpeg_output (utils.register registry name cls).2
    name args kwargs w
  = generate_output_stream ffmpeg_output {[ name := cls ]} name args kwargs w /\
  (utils.register (utils.register registry name earlier).2 name cls).2
  = (utils.register registry name cls).2 /\
  (other ≠ name ->
   generate_output_stream ffmpeg_output (utils.register registry name cls).2
     other args kwargs w
   = generate_output_stream ffmpeg_output registry other args kwargs w).
Proof.
  unfold utils.register, generate_output_stream. simpl. split_and!.
  - done.
  - by rewrite lookup_insert_eq, lookup_singleton_eq.
  - apply insert_insert_eq.
  - intros Hne. by rewrite lookup_insert_ne.
Qed.

(** X9 on an empty registry: before the registration the name is unknown,
    after the registration of another name it still is. *)
Lemma registered_class_is_found_witness :
  generate_output_stream (F := FloatText)
    (fun args keywords => @inr PyExc _ (args, keywords))
    (utils.register ∅ "other-stream" OutputStream.new).2 "webcam" []
    [("filename", PStr "out.mp4")] (mkWorld [] [])
  = generate_output_stream (F := FloatText)
      (fun args keywords => @inr PyExc _ (args, keywords))
      ∅ "webcam" [] [("filename", PStr "out.mp4")] (mkWorld [] []).
Proof.
  apply (proj2 (proj2 (proj2 (registered_class_is_found
           (fun args keywords => @inr PyExc _ (args, keywords))
           ∅ "other-stream" "webcam" OutputStream.new OutputStream.new []
           [("filename", PStr "out.mp4")] (mkWorld [] []))))).
  done.
Defined.

Section resolution_facts.





End resolution_facts.



(** ** Options that contribute nothing *)

Section emits_facts.
Context {F : Type}.
Variable float_str : F -> string.

Lemma option_tokens_silent (doubly : Dict string) (item : string * PyVal F) :
  emits doubly item = false -> option_tokens float_str doubly item = [].
Proof.
  destruct item as [arg val]. unfold emits, option_tokens, dict.mem. simpl.
  destruct val as [|[|]| | |]; try done.
  by destruct (dict.get arg doubly).
Qed.

Lemma option_tokens_length (doubly : Dict string) (item : string * PyVal F) :
  emits doubly item = true ->
  (1 <= length (option_tokens float_str doubly item) <= 2)%nat.
Proof.
  destruct item as [arg val]. unfold emits, option_tokens, dict.mem. simpl.
  destruct val as [|[|]| | |]; simpl; try done; try lia.
  destruct (dict.get arg doubly); simpl; [lia | done].
Qed.
End emits_facts.

(** X11.  In an option table of [GlobalOptions], the options whose value is
    [None], and the options whose value is [False] and that have no negative
    name, leave no trace: the argument list is that of the table without
    them.  Every other option contributes one or two tokens, so the length
    of the list lies between their number and twice their number. *)
Theorem silent_options_leave_no_trace {F : Type} (float_str : F -> string)
    (table : Dict (PyVal F)) (doubly : Dict string) (cache : option (list string)) :
  GlobalOptions.compute_ffmpeg_arguments float_str
    (GlobalOptions.Build table doubly cache)
  = GlobalOptions.compute_ffmpeg_arguments float_str
      (GlobalOptions.Build (List.filter (emits doubly) table) doubly cache)
  /\ (length (List.filter (emits doubly) table)
      <= length (GlobalOptions.compute_ffmpeg_arguments float_str
                   (GlobalOptions.Build table doubly cache))
      <= 2 * length (List.filter (emits doubly) table))%nat.
Proof.
  rewrite !compute_concat.
  induction table as [|item table [IH1 IH2]]; simpl; [split; [done | lia]|].
  destruct (emits doubly item) eqn:E; simpl.
  - pose proof (option_tokens_length float_str doubly item E).
    rewrite IH1 in IH2. rewrite length_app, IH1. split; [done | lia].
  - rewrite option_tokens_silent by done. simpl. by split.
Qed.

(** X12.  Unlike the schema of the global options, the schema of the
    output-stream options lists exactly the parameters of
    [OutputStream.__init__], in their order: a call whose keywords are all
    schema keys and which gives ['filename'] constructs an instance, writes
    nothing to the log and changes no dictionary that existed. *)
Theorem output_schema_accepted {F : Type} (kwargs : Dict (PyVal F)) (w : World F) :
  dict.keys output_stream_parameters = dict.keys (OutputStream.signature (F := F)) /\
  (Forall (fun k => k ∈ dict.keys output_stream_parameters) (dict.keys kwargs) ->
   is_Some (dict.get "filename" kwargs) ->
   exists self table,
     OutputStream.new kwargs w
     = (inr self, mkWorld (dicts w ++ [table]) (log w)) /\
     OutputStream._options self = length (dicts w) /\
     dict.get "filename" table = dict.get "filename" kwargs).
Proof.
  split; [reflexivity|]. intros Hall [v Hfile].
  apply (unexpected_keywords_nil OutputStream.signature) in Hall.
  unfold OutputStream.new, bind at 1, lift, bind_kwargs. rewrite Hall.
  rewrite bind_parameters_supplied.
  - rewrite !param_bound. rewrite construct_run.
    eexists _, _. split; [reflexivity|]. split; [done|].
    simpl. by rewrite Hfile.
  - constructor; [right; by eexists|].
    repeat (apply Forall_cons_2; [left; by eexists|]). apply Forall_nil_2.
Qed.

(** X12 on a configuration with three schema keys. *)
Lemma output_schema_accepted_witness :
  exists self table,
    OutputStream.new (F := FloatText)
      [("filename", PStr "out.mp4"); ("framerate", PFloat "29.97");
       ("sample_rate", PInt 44100)] (mkWorld [] [])
    = (inr self, mkWorld ([] ++ [table]) []) /\
    OutputStream._options self = 0%nat /\
    dict.get "filename" table = Some (PStr "out.mp4").
Proof.
  apply (proj2 (output_schema_accepted (F := FloatText)
           [("filename", PStr "out.mp4"); ("framerate", PFloat "29.97");
            ("sample_rate", PInt 44100)] (mkWorld [] []))).
  - unfold dict.keys. compute_done.
  - by eexists.
Defined.
